(** * Insurance claim adjudication pipeline: query parser, hybrid ranker,
      decision engine.

    A shallow embedding of
      - [src/services/query_processor.py]  (module [QueryProcessor]),
      - [src/services/semantic_search.py]  (module [SemanticSearch]),
      - [src/services/decision_engine.py]  (module [DecisionEngine]),
    with the properties of the specification stated over it.

    Modelling conventions.
      - Python [str] is [string] (a sequence of bytes, UTF-8); [lower()] and
        the regex classes [\d], [\s], [\w] act on the ASCII range.
      - Python [float] is the exact rational [Q]; [int] is [Z].
      - A Python exception is a value of [exn]; code that may raise returns
        [outcome].
      - The regular expressions of the source are terms of [regex], run by a
        backtracking matcher with Python's priorities (leftmost match,
        ordered alternation, greedy repetition).  Where a comment quotes a
        pattern of the source, a space separates a star from a closing
        parenthesis that follows it. *)

From Stdlib Require Import List String Ascii Bool Arith ZArith QArith Qminmax Qround Lia Lqa.
From Stdlib Require Import Permutation Sorted.
Import ListNotations.

Local Open Scope string_scope.
Local Open Scope Z_scope.

(** ** Strings *)

Module Str.

Definition is_upper (c : ascii) : bool :=
  let n := nat_of_ascii c in (65 <=? n)%nat && (n <=? 90)%nat.

Definition lower_char (c : ascii) : ascii :=
  if is_upper c then ascii_of_nat (nat_of_ascii c + 32) else c.

(** [s.lower()] *)
Fixpoint lower (s : string) : string :=
  match s with
  | EmptyString => EmptyString
  | String c s' => String (lower_char c) (lower s')
  end.

Definition is_digit (c : ascii) : bool :=
  let n := nat_of_ascii c in (48 <=? n)%nat && (n <=? 57)%nat.

(** Python's ASCII white space: space, \t, \n, \v, \f, \r and the
    separators 0x1c..0x1f. *)
Definition is_space (c : ascii) : bool :=
  let n := nat_of_ascii c in
  (n =? 32)%nat || ((9 <=? n)%nat && (n <=? 13)%nat)
  || ((28 <=? n)%nat && (n <=? 31)%nat).

Definition is_word (c : ascii) : bool :=
  let n := nat_of_ascii c in
  is_digit c || is_upper c || ((97 <=? n)%nat && (n <=? 122)%nat)
  || (n =? 95)%nat.

Fixpoint is_prefix (p s : string) : bool :=
  match p, s with
  | EmptyString, _ => true
  | String a p', String b s' => Ascii.eqb a b && is_prefix p' s'
  | String _ _, EmptyString => false
  end.

(** [sub in s] *)
Fixpoint contains (sub s : string) : bool :=
  is_prefix sub s
  || match s with
     | EmptyString => false
     | String _ s' => contains sub s'
     end.

(** [s[:n]] for [n >= 0] *)
Definition take (n : nat) (s : string) : string := substring 0 n s.

(** [s.split()]: the maximal runs of non-space characters. *)
Fixpoint split_aux (cur : string) (s : string) : list string :=
  match s with
  | EmptyString =>
      match cur with EmptyString => [] | _ => [cur] end
  | String c s' =>
      if is_space c
      then match cur with
           | EmptyString => split_aux EmptyString s'
           | _ => cur :: split_aux EmptyString s'
           end
      else split_aux (cur ++ String c EmptyString) s'
  end.

Definition split (s : string) : list string := split_aux EmptyString s.

(** [s.strip()] *)
Fixpoint lstrip (s : string) : string :=
  match s with
  | String c s' => if is_space c then lstrip s' else s
  | EmptyString => EmptyString
  end.

Fixpoint rstrip (s : string) : string :=
  match s with
  | EmptyString => EmptyString
  | String c s' =>
      match rstrip s' with
      | EmptyString => if is_space c then EmptyString else String c EmptyString
      | t => String c t
      end
  end.

Definition strip (s : string) : string := rstrip (lstrip s).

(** [s.replace(old, new)] for a non-empty [old]: the occurrences of [old]
    are replaced from left to right, without overlap.  [skip] counts the
    characters of an occurrence still to be dropped. *)
Fixpoint replace_from (old new : string) (skip : nat) (s : string) : string :=
  match s with
  | EmptyString => EmptyString
  | String c s' =>
      match skip with
      | S k => replace_from old new k s'
      | O =>
          if is_prefix old s
          then new ++ replace_from old new (String.length old - 1) s'
          else String c (replace_from old new 0 s')
      end
  end.

Definition replace (old new : string) (s : string) : string :=
  replace_from old new 0 s.

(** [s.title()] on ASCII: the first letter of every run of letters is
    upper-cased, the others lower-cased. *)
Definition is_alpha (c : ascii) : bool :=
  let n := nat_of_ascii c in
  is_upper c || ((97 <=? n)%nat && (n <=? 122)%nat).

Definition upper_char (c : ascii) : ascii :=
  let n := nat_of_ascii c in
  if ((97 <=? n)%nat && (n <=? 122)%nat) then ascii_of_nat (n - 32) else c.

Fixpoint title_aux (inword : bool) (s : string) : string :=
  match s with
  | EmptyString => EmptyString
  | String c s' =>
      String (if inword then lower_char c else upper_char c)
             (title_aux (is_alpha c) s')
  end.

Definition title (s : string) : string := title_aux false s.

Definition digit_val (c : ascii) : Z := Z.of_nat (nat_of_ascii c - 48).

(** [int(s)] for a string of decimal digits. *)
Fixpoint int_aux (acc : Z) (s : string) : Z :=
  match s with
  | EmptyString => acc
  | String c s' => int_aux (10 * acc + digit_val c) s'
  end.

Definition all_digits (s : string) : bool :=
  negb (String.eqb s "")
  && forallb is_digit (list_ascii_of_string s).

Definition int_of (s : string) : option Z :=
  if all_digits s then Some (int_aux 0 s) else None.

(** [int(s)] where [s] is the text of a group [(\d+)]. *)
Definition int (s : string) : Z := int_aux 0 s.

(** [str(n)] for an integer. *)
Fixpoint digits_of_pos (fuel : nat) (n : Z) (acc : string) : string :=
  match fuel with
  | O => acc
  | S f =>
      let d := ascii_of_nat (48 + Z.to_nat (n mod 10)) in
      if n <? 10 then String d acc
      else digits_of_pos f (n / 10) (String d acc)
  end.

Definition str_of_Z (n : Z) : string :=
  if n <? 0 then String "-" (digits_of_pos (S (Z.to_nat (Z.log2 (- n)))) (- n) "")
  else digits_of_pos (S (Z.to_nat (Z.log2 n))) n "".

End Str.

(** ** Regular expressions ([re]) *)

Module Re.

(** The constructs the source's patterns use.  Every pattern of the source
    has at most one capturing group, so one capture slot is kept. *)
Inductive regex : Type :=
| Eps : regex
| Lit : ascii -> regex               (* a literal character *)
| Cls : (ascii -> bool) -> regex     (* a class: \d, \s, \w *)
| Cat : regex -> regex -> regex
| Alt : regex -> regex -> regex      (* r1|r2, r1 tried first *)
| Star : regex -> regex              (* r*, greedy *)
| Grp : regex -> regex               (* ( r ), group 1 *)
| Bnd : regex.                       (* \b *)

Fixpoint lit (s : string) : regex :=
  match s with
  | EmptyString => Eps
  | String c EmptyString => Lit c
  | String c s' => Cat (Lit c) (lit s')
  end.

Definition opt (r : regex) : regex := Alt r Eps.          (* r? *)
Definition plus (r : regex) : regex := Cat r (Star r).    (* r+ *)
Definition digit : regex := Cls Str.is_digit.             (* \d *)
Definition space : regex := Cls Str.is_space.             (* \s *)

Fixpoint cat (rs : list regex) : regex :=
  match rs with
  | [] => Eps
  | [r] => r
  | r :: rs' => Cat r (cat rs')
  end.

Fixpoint alt (rs : list regex) : regex :=
  match rs with
  | [] => Eps
  | [r] => r
  | r :: rs' => Alt r (alt rs')
  end.

(** Matcher state: the character before the cursor (for [\b]), the text
    from the cursor on, and the capture. *)
Definition cont (A : Type) : Type :=
  option ascii -> string -> option string -> option A.

Definition char_eq (ci : bool) (c a : ascii) : bool :=
  if ci then Ascii.eqb (Str.lower_char c) (Str.lower_char a)
  else Ascii.eqb c a.

Definition at_boundary (prev : option ascii) (s : string) : bool :=
  let before := match prev with Some c => Str.is_word c | None => false end in
  let after := match s with String c _ => Str.is_word c | EmptyString => false end in
  xorb before after.

(** [rmatch ci r prev s cap k]: match [r] at the cursor, then continue with
    [k]; alternatives are explored in Python's order and the first
    success is returned.  [ci] is [re.IGNORECASE]. *)
Fixpoint rmatch {A : Type} (ci : bool) (r : regex)
         (prev : option ascii) (s : string) (cap : option string)
         (k : cont A) {struct r} : option A :=
  match r with
  | Eps => k prev s cap
  | Lit c =>
      match s with
      | String a s' => if char_eq ci c a then k (Some a) s' cap else None
      | EmptyString => None
      end
  | Cls p =>
      match s with
      | String a s' => if p a then k (Some a) s' cap else None
      | EmptyString => None
      end
  | Cat r1 r2 =>
      rmatch ci r1 prev s cap
             (fun prev' s' cap' => rmatch ci r2 prev' s' cap' k)
  | Alt r1 r2 =>
      match rmatch ci r1 prev s cap k with
      | Some x => Some x
      | None => rmatch ci r2 prev s cap k
      end
  | Star r1 =>
      (fix loop (fuel : nat) (prev : option ascii) (s : string)
           (cap : option string) {struct fuel} : option A :=
         match fuel with
         | O => k prev s cap
         | S fuel' =>
             match rmatch ci r1 prev s cap
                          (fun prev' s' cap' =>
                             if (String.length s' <? String.length s)%nat
                             then loop fuel' prev' s' cap'
                             else None)
             with
             | Some x => Some x
             | None => k prev s cap
             end
         end) (String.length s) prev s cap
  | Grp r1 =>
      rmatch ci r1 prev s cap
             (fun prev' s' _ =>
                k prev' s' (Some (Str.take (String.length s - String.length s') s)))
  | Bnd => if at_boundary prev s then k prev s cap else None
  end.

(** A match object: [group(0)], [group(1)], and what follows the match
    (with the character before it). *)
Record rmatch_obj := {
  group0 : string;
  group1 : option string;
  rest_prev : option ascii;
  rest : string
}.

Definition match_at (ci : bool) (r : regex) (prev : option ascii) (s : string)
  : option rmatch_obj :=
  rmatch ci r prev s None
         (fun prev' s' cap =>
            Some {| group0 := Str.take (String.length s - String.length s') s;
                    group1 := cap; rest_prev := prev'; rest := s' |}).

(** Scan forward from the cursor for the leftmost match; also returns the
    text skipped before it. *)
Fixpoint search_from (ci : bool) (r : regex) (prev : option ascii) (s : string)
  : option (string * rmatch_obj) :=
  match match_at ci r prev s with
  | Some m => Some (EmptyString, m)
  | None =>
      match s with
      | EmptyString => None
      | String c s' =>
          match search_from ci r (Some c) s' with
          | Some (skipped, m) => Some (String c skipped, m)
          | None => None
          end
      end
  end.

(** [re.search(r, s)] *)
Definition search (ci : bool) (r : regex) (s : string) : option rmatch_obj :=
  option_map snd (search_from ci r None s).

(** All non-overlapping matches, left to right.  After an empty match the
    scan moves one character on. *)
Fixpoint finditer (fuel : nat) (ci : bool) (r : regex)
         (prev : option ascii) (s : string) : list (string * rmatch_obj) :=
  match fuel with
  | O => []
  | S fuel' =>
      match search_from ci r prev s with
      | None => []
      | Some (skipped, m) =>
          (skipped, m) ::
          match group0 m, rest m with
          | EmptyString, EmptyString => []
          | EmptyString, String c s' => finditer fuel' ci r (Some c) s'
          | _, s' => finditer fuel' ci r (rest_prev m) s'
          end
      end
  end.

(** [re.findall(r, s)] for a pattern with one group: the list of the
    group's texts. *)
Definition findall (ci : bool) (r : regex) (s : string) : list string :=
  map (fun sm => match group1 (snd sm) with Some g => g | None => EmptyString end)
      (finditer (S (String.length s)) ci r None s).

(** The text after the last match of [finditer]. *)
Fixpoint sub_aux (repl : string) (ms : list (string * rmatch_obj)) (tail : string)
  : string :=
  match ms with
  | [] => tail
  | [(skipped, m)] => skipped ++ repl ++ rest m
  | (skipped, m) :: ms' => skipped ++ repl ++ sub_aux repl ms' tail
  end.

(** [re.sub(r, repl, s)] for patterns that match no empty string. *)
Definition sub (r : regex) (repl : string) (s : string) : string :=
  sub_aux repl (finditer (S (String.length s)) false r None s) s.

End Re.

(** ** Exceptions *)

Inductive exn : Type :=
| OverflowError (msg : string).

(** [str(e)] *)
Definition exn_str (e : exn) : string :=
  match e with
  | OverflowError msg => msg
  end.

Inductive outcome (A : Type) : Type :=
| Ok (a : A)
| Raise (e : exn).
Arguments Ok {A} a.
Arguments Raise {A} e.

Definition bind {A B : Type} (m : outcome A) (f : A -> outcome B) : outcome B :=
  match m with
  | Ok a => f a
  | Raise e => Raise e
  end.

Notation "x <- m ;; k" := (bind m (fun x => k))
  (at level 61, m at next level, right associativity).

(** [try: body  except Exception as e: handler(e)] *)
Definition try_except {A : Type} (body : outcome A) (handler : exn -> outcome A)
  : outcome A :=
  match body with
  | Ok a => Ok a
  | Raise e => handler e
  end.

(** A loop [for x in xs: ...] over a state, left to right, that stops at the
    first exception. *)
Fixpoint for_each {S X : Type} (body : S -> X -> outcome S) (xs : list X) (s : S)
  : outcome S :=
  match xs with
  | [] => Ok s
  | x :: xs' => s' <- body s x ;; for_each body xs' s'
  end.

(** ** Data model *)

(** The [policy_duration] entity. *)
Record PolicyDuration := {
  pd_duration : Z;
  pd_unit : string;
  pd_months : Z
}.

(** The [amount] entity. *)
Record Amount := {
  am_amount : Q;
  am_currency : string;
  am_formatted : string
}.

(** The entity dict.  A field is [None] when the dict has no such key; the
    keys are listed in the order [_extract_entities] inserts them. *)
Record Entities := {
  age : option Z;
  gender : option string;
  procedure : option string;
  location : option string;
  policy_duration : option PolicyDuration;
  amount : option Amount;
  dates : option (list string);
  organizations : option (list string);
  money_mentions : option (list string)
}.

Definition no_entities : Entities :=
  {| age := None; gender := None; procedure := None; location := None;
     policy_duration := None; amount := None; dates := None;
     organizations := None; money_mentions := None |}.

Definition present {A : Type} (o : option A) : bool :=
  match o with Some _ => true | None => false end.

(** [entities.keys()] *)
Definition entity_keys (e : Entities) : list string :=
  (if present (age e) then ["age"] else [])
  ++ (if present (gender e) then ["gender"] else [])
  ++ (if present (procedure e) then ["procedure"] else [])
  ++ (if present (location e) then ["location"] else [])
  ++ (if present (policy_duration e) then ["policy_duration"] else [])
  ++ (if present (amount e) then ["amount"] else [])
  ++ (if present (dates e) then ["dates"] else [])
  ++ (if present (organizations e) then ["organizations"] else [])
  ++ (if present (money_mentions e) then ["money_mentions"] else []).

(** [len(entities)] *)
Definition entity_count (e : Entities) : nat := List.length (entity_keys e).

(** Truth value of a string and of an integer. *)
Definition truthy_str (s : string) : bool := negb (String.eqb s "").
Definition truthy_int (n : Z) : bool := negb (n =? 0).

(** [entities.get('procedure', '').lower() if entities.get('procedure') else ''] *)
Definition procedure_lower (e : Entities) : string :=
  match procedure e with
  | Some p => if truthy_str p then Str.lower p else ""
  | None => ""
  end.

(** ** Numbers *)

Module Num.

(** [float(s)] for [s] of the shape digits or digits.digits; any other
    text is a [ValueError] ([None]). *)
Fixpoint split_dot (s : string) : string * option string :=
  match s with
  | EmptyString => (EmptyString, None)
  | String c s' =>
      if Ascii.eqb c "." then (EmptyString, Some s')
      else let '(ip, fp) := split_dot s' in (String c ip, fp)
  end.

Definition float_of (s : string) : option Q :=
  match split_dot s with
  | (ip, None) => option_map inject_Z (Str.int_of ip)
  | (ip, Some fp) =>
      match Str.int_of ip, Str.int_of fp with
      | Some i, Some f =>
          Some (inject_Z i + inject_Z f / inject_Z (10 ^ Z.of_nat (String.length fp)))%Q
      | _, _ => None
      end
  end.

(** Rounding to the nearest integer, ties to even. *)
Definition round_half_even (q : Q) : Z :=
  let f := Qfloor q in
  let r := (q - inject_Z f)%Q in
  match (r ?= 1 # 2)%Q with
  | Lt => f
  | Gt => f + 1
  | Eq => if Z.even f then f else f + 1
  end.

(** [round(q, 2)] *)
Definition round2 (q : Q) : Q := (inject_Z (round_half_even (q * 100)) / 100)%Q.

(** [sum(xs)] *)
Definition sum (xs : list Q) : Q := fold_left Qplus xs 0%Q.

(** Digits of [n >= 0] with a comma every three digits (format [,]). *)
Fixpoint commas_rev (l : list ascii) (i : nat) : list ascii :=
  match l with
  | [] => []
  | c :: l' =>
      if (i =? 3)%nat then ","%char :: c :: commas_rev l' 1
      else c :: commas_rev l' (S i)
  end.

Definition format_thousands (n : Z) : string :=
  string_of_list_ascii
    (rev (commas_rev (rev (list_ascii_of_string (Str.str_of_Z n))) 0)).

End Num.

(** ** Query parser ([query_processor.py]) *)

Module QueryProcessor.

Import Re.

Definition d12 : regex := Cat digit (opt digit).          (* \d{1,2} *)
Definition sp : regex := Star space.                      (* \s* *)
Definition money : regex :=                               (* \d+(?:,\d+)* *)
  Cat (plus digit) (Star (Cat (Lit ",") (plus digit))).

(** [self.patterns['age']] *)
Definition patterns_age : list regex :=
  [ (* (\d{1,2})\s*(?:year|yr|y\.o\.?|years?)\s*old *)
    cat [Grp d12; sp;
         alt [lit "year"; lit "yr"; Cat (lit "y.o") (opt (Lit "."));
              Cat (lit "year") (opt (Lit "s"))];
         sp; lit "old"];
    (* age\s*(?:of\s* )?(\d{1,2}) *)
    cat [lit "age"; sp; opt (Cat (lit "of") sp); Grp d12];
    (* (\d{1,2})\s*(?:male|female|M|F) *)
    cat [Grp d12; sp; alt [lit "male"; lit "female"; Lit "M"; Lit "F"]] ].

(** [self.patterns['gender']] *)
Definition patterns_gender : list regex :=
  [ (* \b(?:male|man|M)\b *)
    cat [Bnd; alt [lit "male"; lit "man"; Lit "M"]; Bnd];
    (* \b(?:female|woman|F)\b *)
    cat [Bnd; alt [lit "female"; lit "woman"; Lit "F"]; Bnd] ].

(** [self.patterns['policy_duration']] *)
Definition patterns_policy_duration : list regex :=
  [ (* (\d+)\s*(?:month|mon|months?)\s*(?:old\s* )?policy *)
    cat [Grp (plus digit); sp;
         alt [lit "month"; lit "mon"; Cat (lit "month") (opt (Lit "s"))];
         sp; opt (Cat (lit "old") sp); lit "policy"];
    (* (\d+)\s*(?:year|yr|years?)\s*(?:old\s* )?policy *)
    cat [Grp (plus digit); sp;
         alt [lit "year"; lit "yr"; Cat (lit "year") (opt (Lit "s"))];
         sp; opt (Cat (lit "old") sp); lit "policy"];
    (* policy\s*(?:of\s* )?(\d+)\s*(?:month|year) *)
    cat [lit "policy"; sp; opt (Cat (lit "of") sp); Grp (plus digit); sp;
         alt [lit "month"; lit "year"]] ].

(** [self.patterns['amount']] *)
Definition patterns_amount : list regex :=
  [ (* ₹\s*(\d+(?:,\d+)* ) *)
    cat [lit "₹"; sp; Grp money];
    (* rs\.?\s*(\d+(?:,\d+)* ) *)
    cat [lit "rs"; opt (Lit "."); sp; Grp money];
    (* rupees?\s*(\d+(?:,\d+)* ) *)
    cat [lit "rupee"; opt (Lit "s"); sp; Grp money] ].

(** [int(match.group(1))]; [None] stands for the [ValueError] or
    [IndexError] the source catches. *)
Definition int_group1 (m : rmatch_obj) : option Z :=
  match group1 m with
  | Some g => Str.int_of g
  | None => None
  end.

Definition abbreviations : list (string * string) :=
  [("yrs", "years"); ("yr", "year"); ("mos", "months"); ("mo", "month");
   ("hrs", "hours"); ("hr", "hour"); ("mins", "minutes"); ("min", "minute")].

Definition _normalize_query (query : string) : string :=
  let query := Str.lower query in
  let query := Str.strip (sub (plus space) " " query) in
  fold_left (fun q af => sub (cat [Bnd; lit (fst af); Bnd]) (snd af) q)
            abbreviations query.

(** The loop of [_extract_age] over the patterns still to try. *)
Fixpoint extract_age_from (ps : list regex) (query : string) : option Z :=
  match ps with
  | [] => None
  | pattern :: ps' =>
      match search true pattern query with
      | Some m =>
          match int_group1 m with
          | Some age =>
              if (0 <=? age) && (age <=? 120) then Some age
              else extract_age_from ps' query
          | None => extract_age_from ps' query
          end
      | None => extract_age_from ps' query
      end
  end.

Definition _extract_age (query : string) : option Z :=
  extract_age_from patterns_age query.

Definition mem_str (s : string) (l : list string) : bool :=
  existsb (String.eqb s) l.

Fixpoint extract_gender_from (ps : list regex) (query : string) : option string :=
  match ps with
  | [] => None
  | pattern :: ps' =>
      match search true pattern query with
      | Some m =>
          let gender_text := Str.lower (group0 m) in
          if mem_str gender_text ["male"; "man"; "m"] then Some "male"
          else if mem_str gender_text ["female"; "woman"; "f"] then Some "female"
          else extract_gender_from ps' query
      | None => extract_gender_from ps' query
      end
  end.

Definition _extract_gender (query : string) : option string :=
  extract_gender_from patterns_gender query.

Definition medical_terms : list string :=
  ["knee surgery"; "heart surgery"; "brain surgery"; "eye surgery";
   "cancer"; "diabetes"; "hypertension"; "surgery"; "operation";
   "procedure"; "treatment"; "transplant"; "dialysis"; "chemotherapy";
   "radiotherapy"; "hospitalization"; "admission"].

(** [max(xs, key=len)]: the first element of maximal length. *)
Fixpoint max_by_len (best : string) (xs : list string) : string :=
  match xs with
  | [] => best
  | x :: xs' =>
      if (String.length best <? String.length x)%nat then max_by_len x xs'
      else max_by_len best xs'
  end.

Definition _extract_procedure (query : string) : option string :=
  let found_procedures :=
    filter (fun term => Str.contains (Str.lower term) (Str.lower query))
           medical_terms in
  match found_procedures with
  | [] => None
  | t :: ts => Some (max_by_len t ts)
  end.

Definition cities : list string :=
  ["mumbai"; "delhi"; "bangalore"; "chennai"; "kolkata"; "hyderabad";
   "pune"; "ahmedabad"; "surat"; "jaipur"; "lucknow"; "kanpur";
   "nagpur"; "indore"; "thane"; "bhopal"; "visakhapatnam"; "pimpri";
   "patna"; "vadodara"; "ghaziabad"; "ludhiana"; "coimbatore"].

Fixpoint extract_policy_duration_from (ps : list regex) (query : string)
  : option PolicyDuration :=
  match ps with
  | [] => None
  | pattern :: ps' =>
      match search true pattern query with
      | Some m =>
          match int_group1 m with
          | Some duration =>
              let match_text := Str.lower (group0 m) in
              if Str.contains "year" match_text || Str.contains "yr" match_text
              then Some {| pd_duration := duration; pd_unit := "years";
                           pd_months := duration * 12 |}
              else Some {| pd_duration := duration; pd_unit := "months";
                           pd_months := duration |}
          | None => extract_policy_duration_from ps' query
          end
      | None => extract_policy_duration_from ps' query
      end
  end.

Definition _extract_policy_duration (query : string) : option PolicyDuration :=
  extract_policy_duration_from patterns_policy_duration query.

Fixpoint extract_amount_from (ps : list regex) (query : string) : option Amount :=
  match ps with
  | [] => None
  | pattern :: ps' =>
      match search true pattern query with
      | Some m =>
          match group1 m with
          | Some g =>
              let amount_str := Str.replace "," "" g in
              match Str.int_of amount_str with
              | Some n =>
                  Some {| am_amount := inject_Z n; am_currency := "INR";
                          am_formatted := "₹" ++ Num.format_thousands n |}
              | None => extract_amount_from ps' query
              end
          | None => extract_amount_from ps' query
          end
      | None => extract_amount_from ps' query
      end
  end.

Definition _extract_amount (query : string) : option Amount :=
  extract_amount_from patterns_amount query.

(** *** The part that uses the optional spaCy tagger.  [nlp] is
    [self.nlp]: [None] when the model is not installed, else the function
    from a text to its entities, each a pair (label, text). *)
Section Tagger.

Variable nlp : option (string -> list (string * string)).

Definition ents_with (label : string) (doc : list (string * string))
  : list string :=
  map snd (filter (fun ent => String.eqb (fst ent) label) doc).

Definition _extract_location (query : string) : option string :=
  let query_lower := Str.lower query in
  match filter (fun city => Str.contains city query_lower) cities with
  | city :: _ => Some (Str.title city)
  | [] =>
      match nlp with
      | Some tagger => hd_error (ents_with "GPE" (tagger query))
      | None => None
      end
  end.

(** The three keys of [_extract_spacy_entities]. *)
Definition nonempty_list (l : list string) : option (list string) :=
  match l with [] => None | _ => Some l end.

Definition _extract_entities (query : string) : Entities :=
  let age := _extract_age query in
  let gender := _extract_gender query in
  let procedure := _extract_procedure query in
  let location := _extract_location query in
  let policy_duration := _extract_policy_duration query in
  let amount := _extract_amount query in
  let doc := match nlp with Some tagger => tagger query | None => [] end in
  {| age := match age with
            | Some a => if truthy_int a then Some a else None
            | None => None
            end;
     gender := match gender with
               | Some g => if truthy_str g then Some g else None
               | None => None
               end;
     procedure := match procedure with
                  | Some p => if truthy_str p then Some p else None
                  | None => None
                  end;
     location := match location with
                 | Some l => if truthy_str l then Some l else None
                 | None => None
                 end;
     policy_duration := policy_duration;
     amount := amount;
     dates := nonempty_list (ents_with "DATE" doc);
     organizations := nonempty_list (ents_with "ORG" doc);
     money_mentions := nonempty_list (ents_with "MONEY" doc) |}.

Definition intent_keywords : list (string * list string) :=
  [("coverage_verification", ["cover"; "coverage"; "eligible"; "include"; "apply"]);
   ("claim_processing", ["claim"; "benefit"; "payout"; "reimburse"; "amount"]);
   ("exclusion_check", ["exclusion"; "exclude"; "not covered"; "exception"]);
   ("waiting_period_check", ["waiting period"; "wait"; "when"; "delay"]);
   ("premium_inquiry", ["premium"; "cost"; "price"; "fee"; "charge"]);
   ("policy_details", ["policy"; "terms"; "condition"; "detail"]);
   ("general_inquiry", ["what"; "how"; "when"; "where"; "why"])].

(** [max(intent_scores, key=intent_scores.get)]: the first key of
    maximal score. *)
Fixpoint max_by_score (best : string * nat) (xs : list (string * nat))
  : string :=
  match xs with
  | [] => fst best
  | x :: xs' =>
      if (snd best <? snd x)%nat then max_by_score x xs'
      else max_by_score best xs'
  end.

Definition _classify_intent (query : string) : string :=
  let query_lower := Str.lower query in
  let intent_scores :=
    filter (fun sc => (0 <? snd sc)%nat)
           (map (fun ik =>
                   (fst ik,
                    List.length (filter (fun keyword => Str.contains keyword query_lower)
                                        (snd ik))))
                intent_keywords) in
  match intent_scores with
  | [] => "general_inquiry"
  | x :: xs => max_by_score x xs
  end.

Definition confidence_medical_terms : list string :=
  ["surgery"; "treatment"; "condition"; "procedure"; "hospital"].

Definition confidence_insurance_terms : list string :=
  ["policy"; "claim"; "coverage"; "benefit"; "premium"].

(** Number of the terms that occur in the lower-cased query. *)
Definition term_hits (terms : list string) (query : string) : nat :=
  List.length (filter (fun term => Str.contains term (Str.lower query)) terms).

Definition has_digit (query : string) : bool :=
  present (search false (plus digit) query).

Definition has_comma (query : string) : bool := Str.contains "," query.

Definition _calculate_confidence (query : string) (entities : Entities) : Q :=
  let base_score := 0.5%Q in
  let entity_bonus := (inject_Z (Z.of_nat (entity_count entities)) * 0.1)%Q in
  let medical_bonus :=
    Num.sum (map (fun _ => 0.05%Q)
                 (filter (fun term => Str.contains term (Str.lower query))
                         confidence_medical_terms)) in
  let insurance_bonus :=
    Num.sum (map (fun _ => 0.05%Q)
                 (filter (fun term => Str.contains term (Str.lower query))
                         confidence_insurance_terms)) in
  let structure_bonus := 0%Q in
  let structure_bonus :=
    if has_digit query then (structure_bonus + 0.1)%Q else structure_bonus in
  let structure_bonus :=
    if has_comma query then (structure_bonus + 0.1)%Q else structure_bonus in
  let confidence :=
    Qmin (base_score + entity_bonus + medical_bonus + insurance_bonus
          + structure_bonus)%Q 1.0%Q in
  Num.round2 confidence.

Record ParsedQuery := {
  original_query : string;
  entities : Entities;
  intent : string;
  confidence : Q;
  normalized_query : string
}.

Definition parse_query (query : string) : ParsedQuery :=
  let normalized_query := _normalize_query query in
  let entities := _extract_entities normalized_query in
  let intent := _classify_intent normalized_query in
  let confidence := _calculate_confidence normalized_query entities in
  {| original_query := query; entities := entities; intent := intent;
     confidence := confidence; normalized_query := normalized_query |}.

End Tagger.

End QueryProcessor.

(** ** Passages *)

Record BoostFactors := {
  keyword_boost : Q;
  section_boost : Q;
  entity_boost : Q
}.

(** A search result.  The dicts built by [_postgres_vector_search] and
    [_basic_text_search] carry every key read downstream; [boost_factors]
    and [relevance_factors] are the keys the ranker adds. *)
Record Passage := {
  chunk_id : string;
  text : string;
  section_type : string;
  filename : string;
  similarity_score : Q;
  boost_factors : option BoostFactors;
  relevance_factors : option (list string)
}.

Definition Qlt_bool (a b : Q) : bool := negb (Qle_bool b a).

(** ** Hybrid retrieval and ranking ([semantic_search.py]) *)

Module SemanticSearch.

(** The values of the entity dict, as [entities.items()] yields them. *)
Inductive entity_value : Type :=
| VInt (n : Z)
| VStr (s : string)
| VDuration (d : PolicyDuration)
| VAmount (a : Amount)
| VList (l : list string).

Definition item {A : Type} (key : string) (inj : A -> entity_value)
           (o : option A) : list (string * entity_value) :=
  match o with Some a => [(key, inj a)] | None => [] end.

Definition entity_items (e : Entities) : list (string * entity_value) :=
  item "age" VInt (age e) ++ item "gender" VStr (gender e)
  ++ item "procedure" VStr (procedure e) ++ item "location" VStr (location e)
  ++ item "policy_duration" VDuration (policy_duration e)
  ++ item "amount" VAmount (amount e) ++ item "dates" VList (dates e)
  ++ item "organizations" VList (organizations e)
  ++ item "money_mentions" VList (money_mentions e).

(** Truth value of an entity value (the two dicts are never empty). *)
Definition truthy (v : entity_value) : bool :=
  match v with
  | VInt n => truthy_int n
  | VStr s => truthy_str s
  | VDuration _ | VAmount _ => true
  | VList l => match l with [] => false | _ => true end
  end.

(** [f"{query_words[i]} {query_words[i+1]}" for i in range(len(query_words)-1)] *)
Fixpoint bigrams (ws : list string) : list string :=
  match ws with
  | w1 :: ((w2 :: _) as ws') => (w1 ++ " " ++ w2) :: bigrams ws'
  | _ => []
  end.

Definition _calculate_keyword_boost (query : string) (entities : Entities)
           (text : string) : Q :=
  let boost := 0%Q in
  let query_words := Str.split (Str.lower query) in
  let text_lower := Str.lower text in
  let boost :=
    fold_left (fun boost word =>
                 if Str.contains word text_lower then (boost + 0.02)%Q else boost)
              query_words boost in
  let boost :=
    if (1 <? List.length query_words)%nat
    then fold_left (fun boost bigram =>
                      if Str.contains bigram text_lower then (boost + 0.05)%Q
                      else boost)
                   (bigrams query_words) boost
    else boost in
  Qmin boost 0.2%Q.

Definition entity_section_mapping : list (string * list string) :=
  [("procedure", ["benefit"; "coverage"; "condition"]);
   ("amount", ["benefit"; "financial"; "limitation"]);
   ("policy_duration", ["limitation"; "condition"])].

Fixpoint lookup (key : string) (m : list (string * list string))
  : option (list string) :=
  match m with
  | [] => None
  | (k, v) :: m' => if String.eqb key k then Some v else lookup key m'
  end.

Definition mem_str (s : string) (l : list string) : bool :=
  existsb (String.eqb s) l.

Definition _calculate_section_boost (entities : Entities) (section_type : string)
  : Q :=
  let boost := 0%Q in
  let boost :=
    fold_left (fun boost entity_type =>
                 match lookup entity_type entity_section_mapping with
                 | Some sections =>
                     if mem_str section_type sections then (boost + 0.1)%Q
                     else boost
                 | None => boost
                 end)
              (entity_keys entities) boost in
  let boost :=
    if String.eqb section_type "exclusion" then (boost + 0.05)%Q
    else if String.eqb section_type "benefit" then (boost + 0.1)%Q
    else boost in
  Qmin boost 0.3%Q.

Definition _calculate_entity_boost (entities : Entities) (text : string) : Q :=
  let boost := 0%Q in
  let text_lower := Str.lower text in
  let boost :=
    fold_left (fun boost kv =>
                 match kv with
                 | (entity_type, entity_value) =>
                     if String.eqb entity_type "procedure" && truthy entity_value
                     then match entity_value with
                          | VStr s =>
                              if Str.contains (Str.lower s) text_lower
                              then (boost + 0.15)%Q else boost
                          | _ => boost
                          end
                     else if String.eqb entity_type "location" && truthy entity_value
                     then match entity_value with
                          | VStr s =>
                              if Str.contains (Str.lower s) text_lower
                              then (boost + 0.05)%Q else boost
                          | _ => boost
                          end
                     else if String.eqb entity_type "age" && truthy entity_value
                     then match entity_value with
                          | VInt n =>
                              if Str.contains (Str.str_of_Z n) text_lower
                              then (boost + 0.1)%Q else boost
                          | _ => boost
                          end
                     else boost
                 end)
              (entity_items entities) boost in
  Qmin boost 0.25%Q.

(** The body of the loop of [_enhance_with_keyword_search]. *)
Definition enhance (query : string) (entities : Entities) (result : Passage)
  : Passage :=
  let keyword_boost := _calculate_keyword_boost query entities (text result) in
  let section_boost := _calculate_section_boost entities (section_type result) in
  let entity_boost := _calculate_entity_boost entities (text result) in
  let original_score := similarity_score result in
  let boosted_score :=
    Qmin (original_score + keyword_boost + section_boost + entity_boost)%Q 1.0%Q in
  {| chunk_id := chunk_id result; text := text result;
     section_type := section_type result; filename := filename result;
     similarity_score := boosted_score;
     boost_factors := Some {| keyword_boost := keyword_boost;
                              section_boost := section_boost;
                              entity_boost := entity_boost |};
     relevance_factors := relevance_factors result |}.

Definition _enhance_with_keyword_search (query : string) (entities : Entities)
           (vector_results : list Passage) : list Passage :=
  map (enhance query entities) vector_results.

(** [sorted(xs, key=key, reverse=True)]: a stable sort, largest key
    first.  An element is put before the first element whose key is not
    larger than its own. *)
Section Sorting.
Context {A : Type} (key : A -> Q).

Fixpoint insert_desc (x : A) (l : list A) : list A :=
  match l with
  | [] => [x]
  | y :: l' =>
      if Qlt_bool (key x) (key y) then y :: insert_desc x l'
      else x :: y :: l'
  end.

Fixpoint sorted_desc (l : list A) : list A :=
  match l with
  | [] => []
  | x :: l' => insert_desc x (sorted_desc l')
  end.
End Sorting.

(** [xs[:k]]: for [k < 0] the last [-k] elements are dropped. *)
Definition slice_to {A : Type} (k : Z) (xs : list A) : list A :=
  if 0 <=? k then firstn (Z.to_nat k) xs
  else firstn (Z.to_nat (Z.of_nat (List.length xs) + k)) xs.

Section Relevance.

(** [str(v)] of a dict or of a list (Python's [repr]). *)
Variable py_repr : entity_value -> string.

Definition py_str (v : entity_value) : string :=
  match v with
  | VInt n => Str.str_of_Z n
  | VStr s => s
  | _ => py_repr v
  end.

Definition _explain_relevance (result : Passage) (entities : Entities)
  : list string :=
  let score := similarity_score result in
  let factors :=
    if Qlt_bool 0.8 score then ["High semantic similarity"]
    else if Qlt_bool 0.6 score then ["Good semantic similarity"]
    else [] in
  let text_lower := Str.lower (text result) in
  let factors :=
    fold_left (fun factors kv =>
                 match kv with
                 | (entity_type, entity_value) =>
                     if truthy entity_value
                        && Str.contains (Str.lower (py_str entity_value)) text_lower
                     then (factors ++ [("Contains " ++ entity_type ++ ": "
                                                    ++ py_str entity_value)%string])%list
                     else factors
                 end)
              (entity_items entities) factors in
  let section_type := section_type result in
  let factors :=
    if mem_str section_type ["benefit"; "coverage"]
    then (factors ++ ["Relevant policy section"])%list
    else if String.eqb section_type "exclusion"
    then (factors ++ ["Important exclusion clause"])%list
    else factors in
  let kb := match boost_factors result with
            | Some bf => keyword_boost bf
            | None => 0%Q
            end in
  if Qlt_bool 0.05 kb then (factors ++ ["Strong keyword match"])%list
  else factors.

Definition set_relevance (entities : Entities) (result : Passage) : Passage :=
  {| chunk_id := chunk_id result; text := text result;
     section_type := section_type result; filename := filename result;
     similarity_score := similarity_score result;
     boost_factors := boost_factors result;
     relevance_factors := Some (_explain_relevance result entities) |}.

Definition _rank_and_filter_results (results : list Passage)
           (entities : Entities) (similarity_threshold : Q) (top_k : Z)
  : list Passage :=
  let filtered_results :=
    filter (fun result => Qle_bool similarity_threshold (similarity_score result))
           results in
  let sorted_results := sorted_desc similarity_score filtered_results in
  let sorted_results := map (set_relevance entities) sorted_results in
  slice_to top_k sorted_results.

(** The collaborators of [search_documents]: the embedding service, the
    vector store, and the configured threshold. *)
Variable get_embedding : string -> list Q.
Variable _vector_search : list Q -> Z -> list Passage.
Variable SIMILARITY_THRESHOLD : Q.

Definition search_documents (query : string) (entities : Entities)
           (top_k : Z) (similarity_threshold : option Q) : list Passage :=
  let similarity_threshold :=
    match similarity_threshold with
    | Some t => t
    | None => SIMILARITY_THRESHOLD
    end in
  let query_embedding := get_embedding query in
  let search_results := _vector_search query_embedding (top_k * 2) in
  let enhanced_results :=
    _enhance_with_keyword_search query entities search_results in
  _rank_and_filter_results enhanced_results entities similarity_threshold top_k.

End Relevance.

End SemanticSearch.

(** ** Adjudication ([decision_engine.py]) *)

Module DecisionEngine.

Import Re.

(** A Python number: the required waiting period is an [int] or a
    [float] according to the branch that computed it. *)
Inductive number : Type :=
| NInt (n : Z)
| NFloat (q : Q).

Definition num_Q (x : number) : Q :=
  match x with
  | NInt n => inject_Z n
  | NFloat q => q
  end.

(** Conversion of an [int] operand to [float]: integers that round to
    2^1024 or more raise. *)
Definition float_of_int (n : Z) : outcome Q :=
  if Z.abs n <? 2 ^ 1024 - 2 ^ 970 then Ok (inject_Z n)
  else Raise (OverflowError "int too large to convert to float").

(** An entry of a [supporting_clauses] list. *)
Record Clause := {
  cl_type : string;
  cl_text : string;
  cl_source : string;
  cl_section : option string;
  cl_required_months : option number;
  cl_reason : option string;
  cl_amount : option Q
}.

Record Compliance := {
  policy_active : bool;
  coverage_found : bool;
  conditions_met : list string;
  conditions_failed : list string;
  ca_supporting_clauses : list Clause
}.

Record WaitingCheck := {
  applicable : bool;
  satisfied : bool;
  required_period : option number;
  current_period : option Z;
  details : list string;
  wc_supporting_clauses : list Clause
}.

Record ExclusionCheck := {
  excluded : bool;
  exclusion_reasons : list string;
  applicable_exclusions : list string;
  ec_supporting_clauses : list Clause
}.

Record SubLimit := {
  sl_procedure : string;
  sl_limit : Q;
  sl_source : string;
  sl_section : string
}.

Record BenefitCalc := {
  bc_amount : Q;
  currency : string;
  calculation_basis : string;
  sub_limits : list SubLimit;
  deductions : list string;
  bc_supporting_clauses : list Clause
}.

Record DecisionFactors := {
  coverage_analysis : Compliance;
  waiting_period_check : WaitingCheck;
  exclusion_check : ExclusionCheck;
  benefit_calculation : BenefitCalc
}.

Record QueryAnalysis := {
  extracted_entities : Entities;
  confidence_factors : list string
}.

Record Justification := {
  primary_reason : string;
  error_details : option string;
  decision_factors : option DecisionFactors;
  supporting_evidence : list Clause;
  query_analysis : option QueryAnalysis
}.

Record ProcessingDetails := {
  documents_analyzed : option nat;
  relevant_sections_found : option nat;
  error : bool;
  error_message : option string;
  decision_timestamp : string
}.

Record DecisionResult := {
  decision : string;
  amount : Q;
  justification : Justification;
  confidence : Q;
  processing_details : ProcessingDetails
}.

Definition mem_str (s : string) (l : list string) : bool :=
  existsb (String.eqb s) l.

(** [text[:200] + '...'] *)
Definition excerpt (text : string) : string := Str.take 200 text ++ "...".

Definition _get_procedure_variations (procedure : string) : list string :=
  let variations := [procedure] in
  let variations :=
    if Str.contains "surgery" procedure
    then (variations ++ [Str.replace "surgery" "operation" procedure;
                         Str.replace "surgery" "procedure" procedure])%list
    else variations in
  let variations :=
    if Str.contains "knee" procedure
    then (variations ++ ["knee replacement"; "knee arthroscopy"; "knee joint"])%list
    else variations in
  let variations :=
    if Str.contains "heart" procedure
    then (variations ++ ["cardiac"; "cardiovascular"; "coronary"])%list
    else variations in
  variations.

(** *** Compliance analysis *)

Definition compliance_init : Compliance :=
  {| policy_active := true; coverage_found := false; conditions_met := [];
     conditions_failed := []; ca_supporting_clauses := [] |}.

Definition compliance_step (procedure : string) (analysis : Compliance)
           (result : Passage) : Compliance :=
  let text_lower := Str.lower (text result) in
  let section_type := section_type result in
  if mem_str section_type ["benefit"; "coverage"] && truthy_str procedure
  then
    if Str.contains procedure text_lower
       || existsb (fun proc => Str.contains proc text_lower)
                  (_get_procedure_variations procedure)
    then {| policy_active := policy_active analysis;
            coverage_found := true;
            conditions_met :=
              (conditions_met analysis
               ++ [("Procedure '" ++ procedure ++ "' found in benefits")%string])%list;
            conditions_failed := conditions_failed analysis;
            ca_supporting_clauses :=
              (ca_supporting_clauses analysis
               ++ [{| cl_type := "coverage"; cl_text := excerpt (text result);
                      cl_source := filename result;
                      cl_section := Some section_type;
                      cl_required_months := None; cl_reason := None;
                      cl_amount := None |}])%list |}
    else analysis
  else analysis.

Definition _analyze_policy_compliance (entities : Entities)
           (search_results : list Passage) : outcome Compliance :=
  let procedure := procedure_lower entities in
  Ok (fold_left (compliance_step procedure) search_results compliance_init).

(** *** Waiting periods *)

Definition period_patterns : list regex :=
  [ (* (\d+)\s*month[s]? *)
    cat [Grp (plus digit); Star space; lit "month"; opt (Lit "s")];
    (* (\d+)\s*year[s]? *)
    cat [Grp (plus digit); Star space; lit "year"; opt (Lit "s")];
    (* (\d+)\s*day[s]? *)
    cat [Grp (plus digit); Star space; lit "day"; opt (Lit "s")] ].

(** The loop over the patterns up to its [break]: [matches[0]] of the
    first pattern that matches. *)
Fixpoint first_match (ps : list regex) (text_lower : string) : option string :=
  match ps with
  | [] => None
  | pattern :: ps' =>
      match findall false pattern text_lower with
      | m :: _ => Some m
      | [] => first_match ps' text_lower
      end
  end.

(** Conversion of the matched duration to months. *)
Definition required_months_of (text_lower : string) (duration : Z)
  : outcome number :=
  if Str.contains "year" text_lower then Ok (NInt (duration * 12))
  else if Str.contains "day" text_lower
  then d <- float_of_int duration ;; Ok (NFloat (d / 30.0)%Q)
  else Ok (NInt duration).

Definition mentions_waiting (text_lower : string) : bool :=
  Str.contains "waiting period" text_lower || Str.contains "wait" text_lower.

Definition waiting_init : WaitingCheck :=
  {| applicable := false; satisfied := false; required_period := None;
     current_period := None; details := []; wc_supporting_clauses := [] |}.

Section Adjudication.

(** [repr] of a float, and [datetime.utcnow().isoformat()]. *)
Variable float_repr : Q -> string.
Variable now : string.

Definition num_str (x : number) : string :=
  match x with
  | NInt n => Str.str_of_Z n
  | NFloat q => float_repr q
  end.

Definition waiting_step (procedure : string) (current_months : Z)
           (waiting_check : WaitingCheck) (result : Passage)
  : outcome WaitingCheck :=
  let text := text result in
  let text_lower := Str.lower text in
  if truthy_str procedure && mentions_waiting text_lower
  then
    match first_match period_patterns text_lower with
    | Some m =>
        let duration := Str.int m in
        required_months <- required_months_of text_lower duration ;;
        let ok := Qle_bool (num_Q required_months) (inject_Z current_months) in
        Ok {| applicable := true;
              satisfied := if ok then true else satisfied waiting_check;
              required_period := Some required_months;
              current_period := Some current_months;
              details :=
                (details waiting_check
                 ++ [if ok
                     then ("Waiting period satisfied: "
                             ++ Str.str_of_Z current_months ++ " >= "
                             ++ num_str required_months ++ " months")%string
                     else ("Waiting period not satisfied: "
                             ++ Str.str_of_Z current_months ++ " < "
                             ++ num_str required_months ++ " months")%string])%list;
              wc_supporting_clauses :=
                (wc_supporting_clauses waiting_check
                 ++ [{| cl_type := "waiting_period"; cl_text := excerpt text;
                        cl_source := filename result; cl_section := None;
                        cl_required_months := Some required_months;
                        cl_reason := None; cl_amount := None |}])%list |}
    | None => Ok waiting_check
    end
  else Ok waiting_check.

Definition _check_waiting_periods (entities : Entities)
           (search_results : list Passage) : outcome WaitingCheck :=
  let procedure := procedure_lower entities in
  match policy_duration entities with
  | None => Ok waiting_init
  | Some pd =>
      let current_months := pd_months pd in
      for_each (waiting_step procedure current_months) search_results
               waiting_init
  end.

(** *** Exclusions *)

Definition age_patterns : list regex :=
  [ (* above\s+(\d+)\s+years? *)
    cat [lit "above"; plus space; Grp (plus digit); plus space;
         lit "year"; opt (Lit "s")];
    (* over\s+(\d+)\s+years? *)
    cat [lit "over"; plus space; Grp (plus digit); plus space;
         lit "year"; opt (Lit "s")];
    (* (\d+)\s+years?\s+and\s+above *)
    cat [Grp (plus digit); plus space; lit "year"; opt (Lit "s");
         plus space; lit "and"; plus space; lit "above"] ].

Definition exclusion_init : ExclusionCheck :=
  {| excluded := false; exclusion_reasons := []; applicable_exclusions := [];
     ec_supporting_clauses := [] |}.

(** The body of the loop over [age_patterns]. *)
Definition age_pattern_step (age : Z) (text_lower : string)
           (exclusion_check : ExclusionCheck) (pattern : regex)
  : ExclusionCheck :=
  match findall false pattern text_lower with
  | m :: _ =>
      let exclusion_age := Str.int m in
      if exclusion_age <? age
      then {| excluded := true;
              exclusion_reasons :=
                (exclusion_reasons exclusion_check
                 ++ [("Age " ++ Str.str_of_Z age ++ " exceeds exclusion limit of "
                             ++ Str.str_of_Z exclusion_age)%string])%list;
              applicable_exclusions := applicable_exclusions exclusion_check;
              ec_supporting_clauses := ec_supporting_clauses exclusion_check |}
      else exclusion_check
  | [] => exclusion_check
  end.

Definition exclusion_step (procedure : string) (age : option Z)
           (exclusion_check : ExclusionCheck) (result : Passage)
  : ExclusionCheck :=
  let text := text result in
  let text_lower := Str.lower text in
  if String.eqb (section_type result) "exclusion"
  then
    let exclusion_check :=
      if truthy_str procedure && Str.contains procedure text_lower
      then {| excluded := true;
              exclusion_reasons :=
                (exclusion_reasons exclusion_check
                 ++ [("Procedure '" ++ procedure ++ "' found in exclusions")%string])%list;
              applicable_exclusions := applicable_exclusions exclusion_check;
              ec_supporting_clauses :=
                (ec_supporting_clauses exclusion_check
                 ++ [{| cl_type := "exclusion"; cl_text := excerpt text;
                        cl_source := filename result; cl_section := None;
                        cl_required_months := None;
                        cl_reason := Some ("Procedure " ++ procedure ++ " excluded")%string;
                        cl_amount := None |}])%list |}
      else exclusion_check in
    match age with
    | Some a =>
        if truthy_int a
        then fold_left (age_pattern_step a text_lower) age_patterns exclusion_check
        else exclusion_check
    | None => exclusion_check
    end
  else exclusion_check.

Definition _check_exclusions (entities : Entities)
           (search_results : list Passage) : outcome ExclusionCheck :=
  let procedure := procedure_lower entities in
  let age := age entities in
  Ok (fold_left (exclusion_step procedure age) search_results exclusion_init).

(** *** Benefit amount *)

(* \d+(?:,\d+)*(?:\.\d+)? *)
Definition decimal : regex :=
  cat [plus digit; Star (Cat (Lit ",") (plus digit));
       opt (Cat (Lit ".") (plus digit))].

Definition amount_patterns : list regex :=
  [ cat [lit "₹"; Star space; Grp decimal];
    cat [lit "rs"; opt (Lit "."); Star space; Grp decimal];
    cat [lit "rupee"; opt (Lit "s"); Star space; Grp decimal];
    cat [lit "inr"; Star space; Grp decimal];
    cat [Grp decimal; Star space;
         alt [Cat (lit "rupee") (opt (Lit "s")); Cat (lit "rs") (opt (Lit "."));
              lit "₹"]] ].

Definition benefit_init : BenefitCalc :=
  {| bc_amount := 0.0%Q; currency := "INR"; calculation_basis := "sum_insured";
     sub_limits := []; deductions := []; bc_supporting_clauses := [] |}.

(** The body of the loop over the matches of one pattern. *)
Definition amount_step (procedure : string) (res : Passage)
           (benefit_calc : BenefitCalc) (amount_str : string) : BenefitCalc :=
  match Num.float_of (Str.replace "," "" amount_str) with
  | Some amount =>
      if negb (truthy_str procedure)
         || Str.contains procedure (Str.lower (text res))
      then {| bc_amount := if Qlt_bool (bc_amount benefit_calc) amount
                           then amount else bc_amount benefit_calc;
              currency := currency benefit_calc;
              calculation_basis := calculation_basis benefit_calc;
              sub_limits :=
                (sub_limits benefit_calc
                 ++ [{| sl_procedure := if truthy_str procedure then procedure
                                        else "general";
                        sl_limit := amount; sl_source := filename res;
                        sl_section := section_type res |}])%list;
              deductions := deductions benefit_calc;
              bc_supporting_clauses :=
                (bc_supporting_clauses benefit_calc
                 ++ [{| cl_type := "benefit_amount"; cl_text := excerpt (text res);
                        cl_source := filename res; cl_section := None;
                        cl_required_months := None; cl_reason := None;
                        cl_amount := Some amount |}])%list |}
      else benefit_calc
  | None => benefit_calc
  end.

Definition benefit_step (procedure : string) (benefit_calc : BenefitCalc)
           (result : Passage) : BenefitCalc :=
  if mem_str (section_type result) ["benefit"; "limitation"; "financial"]
  then fold_left
         (fun benefit_calc pattern =>
            fold_left (amount_step procedure result)
                      (findall false pattern (Str.lower (text result)))
                      benefit_calc)
         amount_patterns benefit_calc
  else benefit_calc.

Definition _calculate_benefit_amount (entities : Entities)
           (search_results : list Passage) : outcome BenefitCalc :=
  let procedure := procedure_lower entities in
  Ok (fold_left (benefit_step procedure) search_results benefit_init).

(** *** Synthesis *)

Definition _compile_supporting_evidence (compliance_analysis : Compliance)
           (waiting_period_check : WaitingCheck)
           (exclusion_check : ExclusionCheck)
           (benefit_calculation : BenefitCalc) : list Clause :=
  (ca_supporting_clauses compliance_analysis
   ++ wc_supporting_clauses waiting_period_check
   ++ ec_supporting_clauses exclusion_check
   ++ bc_supporting_clauses benefit_calculation)%list.

Definition _analyze_confidence_factors (entities : Entities)
           (search_results : list Passage) : list string :=
  let entity_count := entity_count entities in
  let factors :=
    if (3 <=? entity_count)%nat then ["Complete entity extraction"]
    else if (2 <=? entity_count)%nat then ["Partial entity extraction"]
    else ["Limited entity extraction"] in
  let high_similarity_results :=
    List.length (filter (fun r => Qlt_bool 0.8 (similarity_score r)) search_results) in
  let factors :=
    (factors ++
     (if (3 <=? high_similarity_results)%nat then ["High-quality search results"]
      else if (1 <=? high_similarity_results)%nat then ["Good search results"]
      else ["Limited search results"]))%list in
  let unique_documents :=
    List.length (nodup string_dec (map filename search_results)) in
  (factors ++
   (if (2 <=? unique_documents)%nat then ["Multiple document sources"]
    else ["Single document source"]))%list.

Definition nonempty {A : Type} (l : list A) : bool :=
  match l with [] => false | _ => true end.

Definition _calculate_decision_confidence (compliance_analysis : Compliance)
           (waiting_period_check : WaitingCheck)
           (exclusion_check : ExclusionCheck)
           (search_results : list Passage) : Q :=
  let base_confidence := 0.6%Q in
  let base_confidence :=
    if excluded exclusion_check
       && nonempty (ec_supporting_clauses exclusion_check)
    then (base_confidence + 0.2)%Q else base_confidence in
  let base_confidence :=
    if coverage_found compliance_analysis
       && nonempty (ca_supporting_clauses compliance_analysis)
    then (base_confidence + 0.15)%Q else base_confidence in
  let base_confidence :=
    if applicable waiting_period_check && negb (satisfied waiting_period_check)
    then (base_confidence + 0.15)%Q else base_confidence in
  let avg_similarity :=
    (Num.sum (map similarity_score search_results)
     / inject_Z (Z.of_nat (Nat.max (List.length search_results) 1)))%Q in
  let base_confidence :=
    if Qlt_bool 0.8 avg_similarity then (base_confidence + 0.1)%Q
    else if Qlt_bool 0.6 avg_similarity then (base_confidence + 0.05)%Q
    else base_confidence in
  Qmin base_confidence 1.0%Q.

Definition _generate_final_decision (compliance_analysis : Compliance)
           (waiting_period_check : WaitingCheck)
           (exclusion_check : ExclusionCheck)
           (benefit_calculation : BenefitCalc)
           (entities : Entities) (search_results : list Passage)
  : DecisionResult :=
  let decision := "REJECTED" in
  let amount := 0.0%Q in
  let '(decision, amount, primary_reason) :=
    if excluded exclusion_check
    then ("REJECTED", amount, "Procedure excluded under policy terms")
    else if applicable waiting_period_check
            && negb (satisfied waiting_period_check)
    then ("REJECTED", amount, "Waiting period not satisfied")
    else if coverage_found compliance_analysis
    then ("APPROVED", bc_amount benefit_calculation,
          "Coverage applicable under policy terms")
    else if negb (coverage_found compliance_analysis)
    then ("REJECTED", amount, "Procedure not covered under policy")
    else ("NEEDS_REVIEW", amount,
          "Insufficient information for automatic decision") in
  let justification :=
    {| primary_reason := primary_reason;
       error_details := None;
       decision_factors :=
         Some {| coverage_analysis := compliance_analysis;
                 waiting_period_check := waiting_period_check;
                 exclusion_check := exclusion_check;
                 benefit_calculation := benefit_calculation |};
       supporting_evidence :=
         _compile_supporting_evidence compliance_analysis waiting_period_check
                                      exclusion_check benefit_calculation;
       query_analysis :=
         Some {| extracted_entities := entities;
                 confidence_factors :=
                   _analyze_confidence_factors entities search_results |} |} in
  let confidence :=
    _calculate_decision_confidence compliance_analysis waiting_period_check
                                   exclusion_check search_results in
  let processing_details :=
    {| documents_analyzed := Some (List.length search_results);
       relevant_sections_found :=
         Some (List.length (filter (fun r => Qlt_bool 0.7 (similarity_score r))
                                   search_results));
       error := false; error_message := None;
       decision_timestamp := now |} in
  {| decision := decision; amount := amount; justification := justification;
     confidence := confidence; processing_details := processing_details |}.

Definition _create_error_decision (error_message : string) : DecisionResult :=
  {| decision := "ERROR";
     amount := 0.0%Q;
     justification :=
       {| primary_reason := "Processing error occurred";
          error_details := Some error_message;
          decision_factors := None;
          supporting_evidence := [];
          query_analysis := None |};
     confidence := 0.0%Q;
     processing_details :=
       {| documents_analyzed := None; relevant_sections_found := None;
          error := true; error_message := Some error_message;
          decision_timestamp := now |} |}.

(** The body of the [try] block of [make_decision]. *)
Definition adjudicate (entities : Entities) (search_results : list Passage)
  : outcome DecisionResult :=
  compliance_analysis <- _analyze_policy_compliance entities search_results ;;
  waiting_period_check <- _check_waiting_periods entities search_results ;;
  exclusion_check <- _check_exclusions entities search_results ;;
  benefit_calculation <- _calculate_benefit_amount entities search_results ;;
  Ok (_generate_final_decision compliance_analysis waiting_period_check
                               exclusion_check benefit_calculation
                               entities search_results).

Definition make_decision (query : string) (entities : Entities)
           (search_results : list Passage) : outcome DecisionResult :=
  try_except (adjudicate entities search_results)
             (fun e => Ok (_create_error_decision (exn_str e))).

End Adjudication.

End DecisionEngine.

(** * Specification vocabulary *)

(** ** Decision priority (section 4.3) *)

Module Priority.

Import DecisionEngine.

(** The five branches of the priority resolution, in order. *)
Inductive Branch : Type :=
| Excluded
| WaitingNotSatisfied
| CoverageFound
| CoverageNotFound
| Otherwise.

Definition rank (b : Branch) : nat :=
  match b with
  | Excluded => 1
  | WaitingNotSatisfied => 2
  | CoverageFound => 3
  | CoverageNotFound => 4
  | Otherwise => 5
  end.

Definition in_order : list Branch :=
  [Excluded; WaitingNotSatisfied; CoverageFound; CoverageNotFound; Otherwise].

(** The condition of a branch. *)
Definition guard (c : Compliance) (w : WaitingCheck) (x : ExclusionCheck)
           (b : Branch) : bool :=
  match b with
  | Excluded => excluded x
  | WaitingNotSatisfied => applicable w && negb (satisfied w)
  | CoverageFound => coverage_found c
  | CoverageNotFound => negb (coverage_found c)
  | Otherwise => true
  end.

(** The label and the amount a branch yields. *)
Definition verdict (bc : BenefitCalc) (b : Branch) : string * Q :=
  match b with
  | Excluded => ("REJECTED", 0.0%Q)
  | WaitingNotSatisfied => ("REJECTED", 0.0%Q)
  | CoverageFound => ("APPROVED", bc_amount bc)
  | CoverageNotFound => ("REJECTED", 0.0%Q)
  | Otherwise => ("NEEDS_REVIEW", 0.0%Q)
  end.

(** A branch fires when its condition holds and no earlier one does. *)
Definition fires (c : Compliance) (w : WaitingCheck) (x : ExclusionCheck)
           (b : Branch) : Prop :=
  guard c w x b = true
  /\ forall b', (rank b' < rank b)%nat -> guard c w x b' = false.

(** An exception [err] comes out of the four analyses: of the first of
    them, in call order, that raises. *)
Definition raised_in_analyses (float_repr : Q -> string) (entities : Entities)
           (search_results : list Passage) (err : exn) : Prop :=
  _analyze_policy_compliance entities search_results = Raise err
  \/ (exists c,
         _analyze_policy_compliance entities search_results = Ok c
         /\ (_check_waiting_periods float_repr entities search_results = Raise err
             \/ exists w,
                 _check_waiting_periods float_repr entities search_results = Ok w
                 /\ (_check_exclusions entities search_results = Raise err
                     \/ exists x,
                         _check_exclusions entities search_results = Ok x
                         /\ _calculate_benefit_amount entities search_results
                            = Raise err))).

End Priority.

(** ** Ranking (section 4.2) *)

Module Ranking.

Section Keyed.

Context {A : Type} (key : A -> Q).

(** [a] may stand before [b]: its key is not smaller. *)
Definition desc (a b : A) : Prop := (key b <= key a)%Q.

(** The elements whose key equals [v], in their order. *)
Definition with_key (v : Q) (l : list A) : list A :=
  filter (fun a => Qeq_bool (key a) v) l.

End Keyed.

End Ranking.

(** ** Parser confidence (section 4.1) *)

Module Confidence.

Definition indicator (b : bool) : Q := if b then 1%Q else 0%Q.

Definition of_nat (n : nat) : Q := inject_Z (Z.of_nat n).

(** The unclamped sum of the specification. *)
Definition formula (entities medical_hits insurance_hits : nat)
           (digit comma : bool) : Q :=
  (0.5 + 0.1 * of_nat entities + 0.05 * of_nat medical_hits
   + 0.05 * of_nat insurance_hits
   + 0.1 * indicator digit + 0.1 * indicator comma)%Q.

(** Clamping to [0,1]. *)
Definition clamp01 (q : Q) : Q := Qmax 0 (Qmin q 1).

(** The same sum in hundredths. *)
Definition hundredths (entities medical_hits insurance_hits : nat)
           (digit comma : bool) : Z :=
  50 + 10 * Z.of_nat entities + 5 * Z.of_nat medical_hits
  + 5 * Z.of_nat insurance_hits
  + (if digit then 10 else 0) + (if comma then 10 else 0).

End Confidence.

(** ** Benefit amount (section 4.3) *)

Module Benefit.

Import DecisionEngine.

(** The passage is in one of the three sections that are scanned. *)
Definition scanned (p : Passage) : bool :=
  mem_str (section_type p) ["benefit"; "limitation"; "financial"].

(** The amounts parsed from a list of matched texts. *)
Definition parsed (matches : list string) : list Q :=
  flat_map (fun amount_str =>
              match Num.float_of (Str.replace "," "" amount_str) with
              | Some amount => [amount]
              | None => []
              end) matches.

(** Every amount a currency pattern matches in the passage, pattern by
    pattern, each pattern's matches from left to right. *)
Definition matched_amounts (p : Passage) : list Q :=
  flat_map (fun pattern => parsed (Re.findall false pattern (Str.lower (text p))))
           amount_patterns.

(** The passage's text contains the procedure, or no procedure is given. *)
Definition context_matches (procedure : string) (p : Passage) : bool :=
  negb (truthy_str procedure) || Str.contains procedure (Str.lower (text p)).

(** The matched amounts of the scanned passages. *)
Definition all_amounts (ps : list Passage) : list Q :=
  flat_map (fun p => if scanned p then matched_amounts p else []) ps.

(** Those of the scanned passages whose context matches. *)
Definition applicable_amounts (procedure : string) (ps : list Passage) : list Q :=
  flat_map (fun p => if scanned p && context_matches procedure p
                     then matched_amounts p else []) ps.

(** The running maximum kept by the scan. *)
Definition running_max (start : Q) (amounts : list Q) : Q :=
  fold_left (fun best amount => if Qlt_bool best amount then amount else best)
            amounts start.

(** The amount and the limits recorded after a scan, relative to the
    accumulator it started from. *)
Definition scan_adds (before after : BenefitCalc) (amounts : list Q) : Prop :=
  bc_amount after = running_max (bc_amount before) amounts
  /\ map sl_limit (sub_limits after)
     = (map sl_limit (sub_limits before) ++ amounts)%list.

End Benefit.

(** ** Waiting periods (section 4.3) *)

Module Waiting.

Import DecisionEngine.

(** The duration text a passage yields: the passage mentions a waiting
    period, and the first of the month, year and day patterns that matches
    gives its first match. *)
Definition clause_match (p : Passage) : option string :=
  if mentions_waiting (Str.lower (text p))
  then first_match period_patterns (Str.lower (text p))
  else None.

(** The passage produces a match for a query with this procedure. *)
Definition produces_match (procedure : string) (p : Passage) : bool :=
  truthy_str procedure && present (clause_match p).

(** The requirements, in months, of the passages that produce a match, in
    passage order. *)
Fixpoint requirements (procedure : string) (ps : list Passage)
  : outcome (list number) :=
  match ps with
  | [] => Ok []
  | p :: ps' =>
      match (if truthy_str procedure then clause_match p else None) with
      | Some m =>
          r <- required_months_of (Str.lower (text p)) (Str.int m) ;;
          rs <- requirements procedure ps' ;;
          Ok (r :: rs)
      | None => requirements procedure ps'
      end
  end.

(** [current_months >= required_months] *)
Definition meets (current_months : Z) (required : number) : bool :=
  Qle_bool (num_Q required) (inject_Z current_months).

(** The claim that the scan stops at the first passage producing a
    match: what follows that passage does not change the result. *)
Definition stops_at_first_match (float_repr : Q -> string) : Prop :=
  forall (e : Entities) (before : list Passage) (p : Passage)
         (after : list Passage),
    Forall (fun q => produces_match (procedure_lower e) q = false) before ->
    produces_match (procedure_lower e) p = true ->
    _check_waiting_periods float_repr e (before ++ p :: after)
    = _check_waiting_periods float_repr e (before ++ [p]).

(** What a scan adds to the check it started from, given the requirements
    of the passages it went through. *)
Definition scan_adds (current_months : Z) (before after : WaitingCheck)
           (reqs : list number) : Prop :=
  applicable after = applicable before || DecisionEngine.nonempty reqs
  /\ satisfied after = satisfied before || existsb (meets current_months) reqs
  /\ required_period after = last (map Some reqs) (required_period before)
  /\ current_period after
     = (if DecisionEngine.nonempty reqs then Some current_months
        else current_period before)
  /\ map cl_required_months (wc_supporting_clauses after)
     = (map cl_required_months (wc_supporting_clauses before)
        ++ map Some reqs)%list
  /\ List.length (details after)
     = (List.length (details before) + List.length reqs)%nat.

End Waiting.

(** ** Age extraction (section 4.1) *)

Module AgeForms.

Import QueryProcessor.

(** Query texts that state the age [n] in the forms the patterns
    support. *)
Definition forms (n : Z) : list string :=
  let digits := Str.str_of_Z n in
  ["age " ++ digits; "age of " ++ digits; digits ++ " years old";
   digits ++ " year old"; digits ++ " male"; digits ++ " female"].

(** The age extracted from the normalized text is [n]. *)
Definition extracts (n : Z) (query : string) : bool :=
  match _extract_age (_normalize_query query) with
  | Some a => a =? n
  | None => false
  end.

Definition round_trips (n : Z) : bool := forallb (extracts n) (forms n).

End AgeForms.

(** ** Sample inputs *)

Module Sample.

Definition passage (body section : string) (score : Q) : Passage :=
  {| chunk_id := "chunk-1"; text := body; section_type := section;
     filename := "policy.pdf"; similarity_score := score;
     boost_factors := None; relevance_factors := None |}.

(** A 46 year old man, knee surgery in Pune, a policy of 3 months. *)
Definition knee_claim : Entities :=
  {| age := Some 46; gender := Some "male"; procedure := Some "knee surgery";
     location := Some "Pune";
     policy_duration :=
       Some {| pd_duration := 3; pd_unit := "months"; pd_months := 3 |};
     amount := None; dates := None; organizations := None;
     money_mentions := None |}.

Definition benefit_clause : Passage :=
  passage "Knee surgery is covered up to ₹50,000." "benefit" 0.9.

Definition float_repr (q : Q) : string := "".
Definition now : string := "2024-01-01T00:00:00".

Fixpoint nines (n : nat) : string :=
  match n with
  | O => EmptyString
  | S n' => String "9" (nines n')
  end.

(** A waiting-period clause whose number of days has 400 digits. *)
Definition huge_wait_clause : Passage :=
  passage ("wait " ++ nines 400 ++ " days") "condition" 0.9.

Definition py_repr (v : SemanticSearch.entity_value) : string := "".

(** Three passages above the default threshold 0.7, two of them with the
    same score. *)
Definition ranked_input : list Passage :=
  [passage "Knee surgery is covered." "benefit" 0.8;
   passage "Cosmetic surgery is excluded." "exclusion" 0.9;
   passage "Knee surgery needs a referral." "condition" 0.8;
   passage "Definitions." "general" 0.3].

(** A benefit clause about another treatment. *)
Definition dental_clause : Passage :=
  passage "Dental treatment is covered up to Rs. 5,000." "benefit" 0.8.

(** Two waiting-period clauses. *)
Definition wait_24_months : Passage :=
  passage "A waiting period of 24 months applies to knee surgery." "condition" 0.9.

Definition wait_1_month : Passage :=
  passage "Accident cover: wait 1 month." "condition" 0.8.

End Sample.

(** ** The analyses, passage by passage *)

Module Analyses.

Import DecisionEngine.

(** The passage is a benefit or coverage clause that names the procedure or
    one of its variations. *)
Definition covers (procedure : string) (p : Passage) : bool :=
  mem_str (section_type p) ["benefit"; "coverage"] && truthy_str procedure
  && (Str.contains procedure (Str.lower (text p))
      || existsb (fun proc => Str.contains proc (Str.lower (text p)))
                 (_get_procedure_variations procedure)).

(** The passage is an exclusion clause that names the procedure. *)
Definition names_procedure (procedure : string) (p : Passage) : bool :=
  String.eqb (section_type p) "exclusion"
  && (truthy_str procedure && Str.contains procedure (Str.lower (text p))).

(** One of the age patterns matches in the text, and its first match is a
    limit below the age. *)
Definition age_over_limit (a : Z) (text_lower : string) : bool :=
  existsb (fun pattern =>
             match Re.findall false pattern text_lower with
             | m :: _ => Str.int m <? a
             | [] => false
             end) age_patterns.

(** The passage is an exclusion clause whose age limit the age exceeds. *)
Definition excludes_age (age : option Z) (p : Passage) : bool :=
  String.eqb (section_type p) "exclusion"
  && match age with
     | Some a => truthy_int a && age_over_limit a (Str.lower (text p))
     | None => false
     end.

Definition excludes (procedure : string) (age : option Z) (p : Passage) : bool :=
  names_procedure procedure p || excludes_age age p.

Definition in_exclusion (p : Passage) : bool :=
  String.eqb (section_type p) "exclusion".

Definition in_benefit_or_coverage (p : Passage) : bool :=
  mem_str (section_type p) ["benefit"; "coverage"].

End Analyses.

(** * Properties *)

(** ** Adjudication *)

Section DecisionProperties.

Import DecisionEngine Priority.

Variable float_repr : Q -> string.
Variable now : string.

Lemma branch_cases (b : Branch) :
  b = Excluded \/ b = WaitingNotSatisfied \/ b = CoverageFound
  \/ b = CoverageNotFound \/ b = Otherwise.
Proof. destruct b; auto 6. Qed.

(** The if-chain returns the verdict of the branch [find] selects. *)
Lemma final_decision_find c w x bc e ps :
  exists b,
    find (guard c w x) in_order = Some b
    /\ (decision (_generate_final_decision now c w x bc e ps),
        amount (_generate_final_decision now c w x bc e ps)) = verdict bc b.
Proof.
  unfold _generate_final_decision, in_order; simpl.
  destruct (excluded x); [exists Excluded; auto|].
  destruct (applicable w && negb (satisfied w));
    [exists WaitingNotSatisfied; auto|].
  destruct (coverage_found c);
    [exists CoverageFound; auto | exists CoverageNotFound; auto].
Qed.

Lemma find_fires c w x b :
  find (guard c w x) in_order = Some b ->
  forall b', fires c w x b' <-> b' = b.
Proof.
  unfold in_order, fires; simpl.
  destruct (excluded x) eqn:Ex;
    [| destruct (applicable w && negb (satisfied w)) eqn:Ew;
       [| destruct (coverage_found c) eqn:Ec]];
    simpl; intros [= <-] b'; split.
  all: try (intros ->; split; [simpl; try rewrite Ex; try rewrite Ew; try rewrite Ec; reflexivity|]).
  all: try (intros b'' Hr; destruct b''; simpl in *;
            try rewrite Ex; try rewrite Ew; try rewrite Ec; auto; lia).
  all: intros [Hg Hlt]; destruct b'; auto; simpl in Hg;
    try rewrite Ex in Hg; try rewrite Ew in Hg; try rewrite Ec in Hg;
    try discriminate.
  all: try (specialize (Hlt Excluded ltac:(simpl; lia));
            simpl in Hlt; rewrite Ex in Hlt; discriminate).
  all: try (specialize (Hlt WaitingNotSatisfied ltac:(simpl; lia));
            simpl in Hlt; rewrite Ew in Hlt; discriminate).
  all: try (specialize (Hlt CoverageFound ltac:(simpl; lia));
            simpl in Hlt; rewrite Ec in Hlt; discriminate).
  all: try (specialize (Hlt CoverageNotFound ltac:(simpl; lia));
            simpl in Hlt; rewrite Ec in Hlt; discriminate).
Qed.

(** C1.  The decision resolution evaluates the five branches in the fixed
    order exclusion, waiting period, coverage found, coverage not found,
    otherwise; the first branch whose condition holds gives the label and
    the amount (the benefit amount for APPROVED, 0 for the others), and
    exactly one branch fires. *)
Theorem decision_priority_total_deterministic
        (c : Compliance) (w : WaitingCheck) (x : ExclusionCheck)
        (bc : BenefitCalc) (e : Entities) (ps : list Passage) :
  exists b : Branch,
    find (guard c w x) in_order = Some b
    /\ (forall b', fires c w x b' <-> b' = b)
    /\ decision (_generate_final_decision now c w x bc e ps) = fst (verdict bc b)
    /\ amount (_generate_final_decision now c w x bc e ps) = snd (verdict bc b).
Proof.
  destruct (final_decision_find c w x bc e ps) as [b [Hfind Hv]].
  exists b; split; [exact Hfind|]; split; [apply find_fires, Hfind|].
  rewrite <- Hv; split; reflexivity.
Qed.

(** The label and amount of a synthesised decision. *)
Lemma final_decision_cases c w x bc e ps :
  let d := _generate_final_decision now c w x bc e ps in
  (decision d = "APPROVED" /\ amount d = bc_amount bc)
  \/ (decision d = "REJECTED" /\ amount d = 0.0%Q).
Proof.
  unfold _generate_final_decision; simpl.
  destruct (excluded x); simpl; auto.
  destruct (applicable w && negb (satisfied w)); simpl; auto.
  destruct (coverage_found c); simpl; auto.
Qed.

(** [make_decision] returns either a synthesised decision or the error
    decision for the exception raised. *)
Lemma make_decision_cases query e ps :
  (exists c w x bc,
      make_decision float_repr now query e ps
      = Ok (_generate_final_decision now c w x bc e ps))
  \/ (exists err,
         adjudicate float_repr now e ps = Raise err
         /\ make_decision float_repr now query e ps
            = Ok (_create_error_decision now (exn_str err))).
Proof.
  unfold make_decision, adjudicate, _analyze_policy_compliance,
    _check_exclusions, _calculate_benefit_amount; simpl.
  destruct (_check_waiting_periods float_repr e ps) as [w|err]; simpl.
  - left; do 4 eexists; reflexivity.
  - right; exists err; auto.
Qed.

(** C2.  In every decision the engine returns, the error decision
    included, a positive amount implies the label APPROVED; a decision
    with any other label has amount 0. *)
Theorem positive_amount_only_if_approved
        (query : string) (e : Entities) (ps : list Passage) (d : DecisionResult) :
  make_decision float_repr now query e ps = Ok d ->
  (0 < amount d -> decision d = "APPROVED")%Q
  /\ (decision d <> "APPROVED" -> amount d = 0.0%Q).
Proof.
  intros Hd.
  destruct (make_decision_cases query e ps) as [(c & w & x & bc & H)|(err & _ & H)];
    rewrite H in Hd; injection Hd as <-.
  - destruct (final_decision_cases c w x bc e ps) as [[Hl Ha]|[Hl Ha]].
    + split; [intros _; exact Hl | intros Hn; contradiction].
    + split; [rewrite Ha; intros Hpos; discriminate Hpos | intros _; exact Ha].
  - simpl; split; [intros Hpos; discriminate Hpos | reflexivity].
Qed.

(** C3.  The engine always returns a decision, and its label is APPROVED,
    REJECTED or ERROR: the NEEDS_REVIEW branch of the resolution cannot
    be taken, because the two branches before it test [coverage_found]
    and its negation. *)
Theorem needs_review_unreachable
        (query : string) (e : Entities) (ps : list Passage) :
  exists d,
    make_decision float_repr now query e ps = Ok d
    /\ (decision d = "APPROVED" \/ decision d = "REJECTED" \/ decision d = "ERROR")
    /\ decision d <> "NEEDS_REVIEW".
Proof.
  destruct (make_decision_cases query e ps) as [(c & w & x & bc & H)|(err & _ & H)];
    rewrite H; eexists; (split; [reflexivity|]).
  - destruct (final_decision_cases c w x bc e ps) as [[Hl _]|[Hl _]];
      rewrite Hl; split; auto; discriminate.
  - simpl; split; auto; discriminate.
Qed.

Lemma raised_in_analyses_adjudicate e ps err :
  raised_in_analyses float_repr e ps err ->
  adjudicate float_repr now e ps = Raise err.
Proof.
  unfold raised_in_analyses, adjudicate.
  intros [H|(c & Hc & [H|(w & Hw & [H|(x & Hx & H)])])].
  - rewrite H; reflexivity.
  - rewrite Hc, H; reflexivity.
  - rewrite Hc, Hw, H; reflexivity.
  - rewrite Hc, Hw, Hx, H; reflexivity.
Qed.

(** C8.  [make_decision] always returns a decision, never an exception;
    and when an exception is raised inside the four analyses it returns
    the decision with label ERROR, amount 0.0 and confidence 0.0 whose
    justification carries the message of the exception. *)
Theorem make_decision_contains_exceptions
        (query : string) (e : Entities) (ps : list Passage) :
  (exists d, make_decision float_repr now query e ps = Ok d)
  /\ forall err,
      raised_in_analyses float_repr e ps err ->
      exists d,
        make_decision float_repr now query e ps = Ok d
        /\ d = _create_error_decision now (exn_str err)
        /\ decision d = "ERROR" /\ amount d = 0.0%Q /\ confidence d = 0.0%Q
        /\ error_details (justification d) = Some (exn_str err).
Proof.
  split.
  - destruct (make_decision_cases query e ps) as [(c & w & x & bc & H)|(err & _ & H)];
      rewrite H; eexists; reflexivity.
  - intros err Hr. apply raised_in_analyses_adjudicate in Hr.
    unfold make_decision; rewrite Hr; simpl.
    eexists; split; [reflexivity|]. repeat split.
Qed.

End DecisionProperties.

(** The knee-surgery claim against a benefit clause of 50,000 rupees is
    approved for that amount. *)
Lemma positive_amount_only_if_approved_witness :
  exists d,
    DecisionEngine.make_decision Sample.float_repr Sample.now "knee surgery claim"
                                 Sample.knee_claim [Sample.benefit_clause] = Ok d
    /\ (0 < DecisionEngine.amount d)%Q
    /\ DecisionEngine.decision d = "APPROVED".
Proof.
  eexists; split; [vm_compute; reflexivity|]; split; [vm_compute; reflexivity|].
  eapply (positive_amount_only_if_approved Sample.float_repr Sample.now
            "knee surgery claim" Sample.knee_claim [Sample.benefit_clause]);
    vm_compute; reflexivity.
Defined.

(** A waiting period of 400 digits of days overflows the conversion to
    float; the engine answers with the error decision. *)
Lemma make_decision_contains_exceptions_witness :
  exists d,
    DecisionEngine.make_decision Sample.float_repr Sample.now "knee surgery claim"
                                 Sample.knee_claim [Sample.huge_wait_clause] = Ok d
    /\ DecisionEngine.decision d = "ERROR"
    /\ DecisionEngine.error_details (DecisionEngine.justification d)
       = Some "int too large to convert to float".
Proof.
  destruct (make_decision_contains_exceptions Sample.float_repr Sample.now
              "knee surgery claim" Sample.knee_claim [Sample.huge_wait_clause])
    as [_ H].
  destruct (H (OverflowError "int too large to convert to float"))
    as (d & Hd & _ & Hl & _ & _ & He).
  - right; eexists; split; [reflexivity|]. left. vm_compute. reflexivity.
  - exists d; auto.
Defined.

(** ** Retrieval and ranking *)

Section RankingProperties.

Import SemanticSearch.

Local Open Scope Q_scope.

Lemma Qlt_bool_true (a b : Q) : Qlt_bool a b = true -> a < b.
Proof.
  unfold Qlt_bool; intros H; apply negb_true_iff in H.
  apply Qnot_le_lt; intros Hle; apply Qle_bool_iff in Hle; congruence.
Qed.

Lemma Qlt_bool_false (a b : Q) : Qlt_bool a b = false -> b <= a.
Proof.
  unfold Qlt_bool; intros H; apply negb_false_iff in H.
  apply Qle_bool_iff, H.
Qed.

(** A loop that only adds non-negative amounts keeps its accumulator
    non-negative. *)
Lemma fold_left_nonneg {X : Type} (f : Q -> X -> Q) (xs : list X) :
  (forall b x, 0 <= b -> 0 <= f b x) ->
  forall b, 0 <= b -> 0 <= fold_left f xs b.
Proof.
  intros Hf; induction xs as [|x xs IH]; simpl; intros b Hb; auto.
Qed.

Lemma cap_bounds (boost cap : Q) :
  0 <= boost -> 0 <= cap -> 0 <= Qmin boost cap <= cap.
Proof.
  intros Hb Hc; split; [apply Q.min_glb; assumption | apply Q.le_min_r].
Qed.

Lemma keyword_boost_bounds query e body :
  0 <= _calculate_keyword_boost query e body <= 0.2.
Proof.
  unfold _calculate_keyword_boost. apply cap_bounds; [|discriminate].
  match goal with |- 0 <= (if ?c then _ else _) => destruct c end.
  - apply fold_left_nonneg.
    + intros b x Hb; destruct (Str.contains _ _); [lra | exact Hb].
    + apply fold_left_nonneg; [|lra].
      intros b x Hb; destruct (Str.contains _ _); [lra | exact Hb].
  - apply fold_left_nonneg; [|lra].
    intros b x Hb; destruct (Str.contains _ _); [lra | exact Hb].
Qed.

Lemma section_boost_bounds e section :
  0 <= _calculate_section_boost e section <= 0.3.
Proof.
  unfold _calculate_section_boost. apply cap_bounds; [|discriminate].
  assert (H : 0 <= fold_left
                (fun boost entity_type =>
                   match lookup entity_type entity_section_mapping with
                   | Some sections =>
                       if mem_str section sections then boost + 0.1 else boost
                   | None => boost
                   end) (entity_keys e) 0).
  { apply fold_left_nonneg; [|lra].
    intros b x Hb; destruct (lookup _ _); [|exact Hb].
    destruct (mem_str _ _); [lra | exact Hb]. }
  destruct (String.eqb section "exclusion"); [lra|].
  destruct (String.eqb section "benefit"); [lra | exact H].
Qed.

Lemma entity_boost_bounds e body :
  0 <= _calculate_entity_boost e body <= 0.25.
Proof.
  unfold _calculate_entity_boost. apply cap_bounds; [|discriminate].
  apply fold_left_nonneg; [|lra].
  intros b [k v] Hb.
  repeat match goal with
         | |- 0 <= (if ?c then _ else _) => destruct c
         | |- 0 <= match ?v with _ => _ end => destruct v
         end; lra.
Qed.

(** C6.  For a passage whose base score is in [0,1], the keyword boost is
    in [0,0.2], the section boost in [0,0.3], the entity boost in
    [0,0.25], and the fused score is min(base + the three boosts, 1.0),
    which lies in [0,1]. *)
Theorem boost_caps_and_fused_score
        (query : string) (e : Entities) (p : Passage) :
  0 <= similarity_score p <= 1 ->
  let kb := _calculate_keyword_boost query e (text p) in
  let sb := _calculate_section_boost e (section_type p) in
  let eb := _calculate_entity_boost e (text p) in
  let p' := enhance query e p in
  (0 <= kb <= 0.2) /\ (0 <= sb <= 0.3) /\ (0 <= eb <= 0.25)
  /\ boost_factors p' = Some {| keyword_boost := kb; section_boost := sb;
                                entity_boost := eb |}
  /\ similarity_score p' = Qmin (similarity_score p + kb + sb + eb) 1.0
  /\ 0 <= similarity_score p' <= 1.
Proof.
  intros [Hlo Hhi] kb sb eb p'.
  pose proof (keyword_boost_bounds query e (text p)) as Hk.
  pose proof (section_boost_bounds e (section_type p)) as Hs.
  pose proof (entity_boost_bounds e (text p)) as He.
  subst kb sb eb p'; unfold enhance; cbn [similarity_score boost_factors].
  repeat split; try tauto.
  - apply Q.min_glb; [lra | discriminate].
  - eapply Qle_trans; [apply Q.le_min_r | discriminate].
Qed.

(** *** The stable descending sort *)

Section SortedDesc.

Context {A : Type} (key : A -> Q).

Lemma insert_desc_perm (x : A) (l : list A) :
  Permutation (insert_desc key x l) (x :: l).
Proof.
  induction l as [|y l IH]; simpl; [reflexivity|].
  destruct (Qlt_bool (key x) (key y)); [|reflexivity].
  rewrite IH; apply perm_swap.
Qed.

Lemma sorted_desc_perm (l : list A) : Permutation (sorted_desc key l) l.
Proof.
  induction l as [|x l IH]; simpl; [reflexivity|].
  rewrite insert_desc_perm; auto.
Qed.

Lemma insert_desc_sorted (x : A) (l : list A) :
  StronglySorted (Ranking.desc key) l -> StronglySorted (Ranking.desc key) (insert_desc key x l).
Proof.
  induction l as [|y l IH]; simpl; intros Hs.
  - repeat constructor.
  - inversion Hs as [|? ? Hl Hy]; subst.
    destruct (Qlt_bool (key x) (key y)) eqn:E.
    + constructor; [auto|].
      eapply Permutation_Forall; [symmetry; apply insert_desc_perm|].
      constructor; [|exact Hy].
      apply Qlt_le_weak, Qlt_bool_true, E.
    + apply Qlt_bool_false in E.
      constructor; [exact Hs|].
      constructor; [exact E|].
      eapply Forall_impl; [|exact Hy].
      intros a Ha; unfold Ranking.desc in *; eapply Qle_trans; eauto.
Qed.

Lemma sorted_desc_sorted (l : list A) :
  StronglySorted (Ranking.desc key) (sorted_desc key l).
Proof.
  induction l as [|x l IH]; simpl; [constructor | apply insert_desc_sorted, IH].
Qed.

Lemma insert_desc_with_key (v : Q) (x : A) (l : list A) :
  Ranking.with_key key v (insert_desc key x l) = Ranking.with_key key v (x :: l).
Proof.
  induction l as [|y l IH]; [reflexivity|].
  cbn [insert_desc].
  destruct (Qlt_bool (key x) (key y)) eqn:E; [|reflexivity].
  apply Qlt_bool_true in E.
  unfold Ranking.with_key in *; cbn [filter] in *; rewrite IH.
  destruct (Qeq_bool (key x) v) eqn:Ex; [|reflexivity].
  destruct (Qeq_bool (key y) v) eqn:Ey; [|reflexivity].
  apply Qeq_bool_eq in Ex, Ey. rewrite Ex, Ey in E.
  exfalso; revert E; apply Qlt_irrefl.
Qed.

(** Stability: elements of equal key keep their relative order. *)
Lemma sorted_desc_stable (v : Q) (l : list A) :
  Ranking.with_key key v (sorted_desc key l) = Ranking.with_key key v l.
Proof.
  induction l as [|x l IH]; [reflexivity|].
  cbn [sorted_desc]; rewrite insert_desc_with_key.
  unfold Ranking.with_key in *; cbn [filter]; rewrite IH; reflexivity.
Qed.

Lemma map_sorted (f : A -> A) (l : list A) :
  (forall a, key (f a) = key a) ->
  StronglySorted (Ranking.desc key) l ->
  StronglySorted (Ranking.desc key) (map f l).
Proof.
  intros Hf Hs; induction Hs as [|a l Hl IH Ha]; simpl; constructor; auto.
  apply Forall_map; eapply Forall_impl; [|exact Ha].
  intros b Hb; unfold Ranking.desc in *; rewrite !Hf; exact Hb.
Qed.

End SortedDesc.

Lemma In_firstn {A : Type} (x : A) (n : nat) (l : list A) :
  In x (firstn n l) -> In x l.
Proof.
  intros H; rewrite <- (firstn_skipn n l); apply in_or_app; auto.
Qed.

Lemma firstn_sorted {A : Type} (R : A -> A -> Prop) (n : nat) (l : list A) :
  StronglySorted R l -> StronglySorted R (firstn n l).
Proof.
  revert n; induction l as [|x l IH]; intros [|n] Hs; simpl; try constructor.
  - inversion Hs; subst; auto.
  - inversion Hs as [|? ? _ Hx]; subst.
    rewrite <- (firstn_skipn n l) in Hx; apply Forall_app in Hx; tauto.
Qed.

Variable py_repr : entity_value -> string.

(** C7.  (a), (b), for every [top_k]: the ranker's output is a head of
    the list [ranked] that holds exactly the passages at or above the
    threshold, sorted by decreasing score, equal scores in their input
    order; so every passage of the output is at or above the threshold
    and the output is sorted by decreasing score.  (c), for
    [top_k >= 0]: the output is the first [top_k] passages of [ranked],
    and its length is at most [top_k]. *)
Theorem rank_and_filter_spec
        (results : list Passage) (e : Entities) (threshold : Q) (top_k : Z) :
  let kept := filter (fun r => Qle_bool threshold (similarity_score r)) results in
  let out := _rank_and_filter_results py_repr results e threshold top_k in
  exists ranked,
    Permutation ranked kept
    /\ StronglySorted (Ranking.desc similarity_score) ranked
    /\ (forall v, Ranking.with_key similarity_score v ranked
                  = Ranking.with_key similarity_score v kept)
    /\ out = map (set_relevance py_repr e) (slice_to top_k ranked)
    /\ Forall (fun r => threshold <= similarity_score r) out
    /\ StronglySorted (Ranking.desc similarity_score) out
    /\ ((0 <= top_k)%Z ->
        out = map (set_relevance py_repr e) (firstn (Z.to_nat top_k) ranked)
        /\ (Z.of_nat (List.length out) <= top_k)%Z).
Proof.
  intros kept out.
  exists (sorted_desc similarity_score kept).
  assert (Hout : out = map (set_relevance py_repr e)
                           (slice_to top_k (sorted_desc similarity_score kept))).
  { subst out kept; unfold _rank_and_filter_results, slice_to.
    rewrite length_map.
    destruct (0 <=? top_k)%Z; rewrite firstn_map; reflexivity. }
  assert (Hhead : exists n, slice_to top_k (sorted_desc similarity_score kept)
                            = firstn n (sorted_desc similarity_score kept)).
  { unfold slice_to; destruct (0 <=? top_k)%Z; eexists; reflexivity. }
  destruct Hhead as [n Hn].
  split; [apply sorted_desc_perm|].
  split; [apply sorted_desc_sorted|].
  split; [intros v; apply sorted_desc_stable|].
  split; [exact Hout|].
  split; [|split].
  - rewrite Hout, Hn.
    apply Forall_map, Forall_forall; intros r Hr; simpl.
    apply In_firstn in Hr.
    eapply Permutation_in in Hr; [|apply sorted_desc_perm].
    subst kept; apply filter_In in Hr; apply Qle_bool_iff; tauto.
  - rewrite Hout, Hn.
    apply map_sorted; [reflexivity|].
    apply firstn_sorted, sorted_desc_sorted.
  - intros Hk.
    assert (Hs : slice_to top_k (sorted_desc similarity_score kept)
                 = firstn (Z.to_nat top_k) (sorted_desc similarity_score kept)).
    { unfold slice_to; destruct (0 <=? top_k)%Z eqn:E; [reflexivity | lia]. }
    rewrite Hout, Hs; split; [reflexivity|].
    rewrite length_map, length_firstn; lia.
Qed.

End RankingProperties.

(** A base score of 0.5 in a benefit section about the procedure is
    boosted within the caps. *)
Lemma boost_caps_and_fused_score_witness :
  (SemanticSearch._calculate_keyword_boost
     "knee surgery" Sample.knee_claim (text Sample.benefit_clause) <= 0.2)%Q
  /\ (0 <= similarity_score
             (SemanticSearch.enhance "knee surgery" Sample.knee_claim
                                     Sample.benefit_clause) <= 1)%Q.
Proof.
  pose proof (boost_caps_and_fused_score "knee surgery" Sample.knee_claim
                Sample.benefit_clause) as H.
  cbv zeta in H.
  destruct H as ((_ & Hk) & _ & _ & _ & _ & Hs).
  - split; vm_compute; discriminate.
  - split; [exact Hk | exact Hs].
Defined.

(** With [top_k = 2] the two best passages are returned. *)
Lemma rank_and_filter_spec_witness :
  (Z.of_nat (List.length (SemanticSearch._rank_and_filter_results
                            Sample.py_repr Sample.ranked_input Sample.knee_claim
                            0.7 2)) <= 2)%Z.
Proof.
  destruct (rank_and_filter_spec Sample.py_repr Sample.ranked_input
              Sample.knee_claim 0.7 2) as (ranked & _ & _ & _ & _ & _ & _ & H).
  apply H. vm_compute; discriminate.
Defined.

(** With [top_k = -1] the slice drops the last of the three passages kept:
    two passages are returned, more than [top_k]. *)
Lemma rank_negative_top_k_counterexample :
  ~ (Z.of_nat (List.length (SemanticSearch._rank_and_filter_results
                              Sample.py_repr Sample.ranked_input Sample.knee_claim
                              0.7 (-1))) <= -1)%Z.
Proof. vm_compute. intros H; apply H; reflexivity. Qed.

(** ** Query parser *)

Section ParserProperties.

Import QueryProcessor Confidence.

Local Open Scope Q_scope.

Lemma sum_constant_from {X : Type} (c : Q) (l : list X) (acc : Q) :
  fold_left Qplus (map (fun _ => c) l) acc == acc + c * of_nat (List.length l).
Proof.
  revert acc; induction l as [|x l IH]; intros acc; unfold of_nat in *.
  - simpl; ring.
  - cbn [map fold_left List.length]; rewrite IH.
    rewrite Nat2Z.inj_succ; unfold Z.succ; rewrite inject_Z_plus; ring.
Qed.

Lemma sum_constant {X : Type} (c : Q) (l : list X) :
  Num.sum (map (fun _ => c) l) == c * of_nat (List.length l).
Proof. unfold Num.sum; rewrite sum_constant_from; ring. Qed.

Lemma round_half_even_comp (p q : Q) :
  p == q -> Num.round_half_even p = Num.round_half_even q.
Proof.
  intros H; unfold Num.round_half_even.
  rewrite (Qfloor_comp _ _ H).
  assert (Hc : (p - inject_Z (Qfloor q) ?= 1 # 2)
               = (q - inject_Z (Qfloor q) ?= 1 # 2))
    by (apply Qcompare_comp; [rewrite H|]; reflexivity).
  rewrite Hc; reflexivity.
Qed.

Lemma round2_comp (p q : Q) : p == q -> Num.round2 p = Num.round2 q.
Proof.
  intros H; unfold Num.round2.
  rewrite (round_half_even_comp (p * 100) (q * 100)); [reflexivity|].
  rewrite H; reflexivity.
Qed.

Lemma round_half_even_Z (q : Q) (k : Z) :
  q == inject_Z k -> Num.round_half_even q = k.
Proof.
  intros H; rewrite (round_half_even_comp _ _ H).
  unfold Num.round_half_even; rewrite Qfloor_Z.
  assert (Hz : inject_Z k - inject_Z k == 0) by ring.
  destruct (Qcompare_spec (inject_Z k - inject_Z k) (1 # 2)) as [He|_|Hgt].
  - rewrite Hz in He; discriminate He.
  - reflexivity.
  - rewrite Hz in Hgt; discriminate Hgt.
Qed.

(** A number of hundredths is its own rounding to two decimals. *)
Lemma round2_hundredths (q : Q) (k : Z) :
  q == inject_Z k / 100 -> Num.round2 q == q.
Proof.
  intros H; unfold Num.round2.
  rewrite (round_half_even_Z (q * 100) k); [symmetry; exact H|].
  rewrite H; field.
Qed.

Lemma formula_hundredths n m i d c :
  formula n m i d c == inject_Z (hundredths n m i d c) / 100.
Proof.
  unfold formula, hundredths, of_nat, indicator.
  rewrite !inject_Z_plus, !inject_Z_mult.
  destruct d, c; field.
Qed.

Lemma hundredths_le (j k : Z) :
  inject_Z j / 100 <= inject_Z k / 100 <-> (j <= k)%Z.
Proof. unfold Qle, Qdiv, Qmult, Qinv; simpl; lia. Qed.

Lemma min_hundredths (k : Z) :
  Qmin (inject_Z k / 100) 1 == inject_Z (Z.min k 100) / 100.
Proof.
  assert (H1 : 1 == inject_Z 100 / 100) by reflexivity.
  destruct (Z.le_ge_cases k 100) as [Hk|Hk].
  - rewrite Z.min_l by exact Hk. apply Q.min_l.
    rewrite H1; apply hundredths_le; exact Hk.
  - rewrite Z.min_r by exact Hk. rewrite Q.min_r; [exact H1|].
    rewrite H1; apply hundredths_le; exact Hk.
Qed.

Lemma code_sum_is_formula query e :
  0.5 + inject_Z (Z.of_nat (entity_count e)) * 0.1
  + Num.sum (map (fun _ => 0.05)
                 (filter (fun term => Str.contains term (Str.lower query))
                         confidence_medical_terms))
  + Num.sum (map (fun _ => 0.05)
                 (filter (fun term => Str.contains term (Str.lower query))
                         confidence_insurance_terms))
  + (let b := if has_digit query then 0 + 0.1 else 0 in
     if has_comma query then b + 0.1 else b)
  == formula (entity_count e)
             (term_hits confidence_medical_terms query)
             (term_hits confidence_insurance_terms query)
             (has_digit query) (has_comma query).
Proof.
  rewrite !sum_constant; unfold formula, term_hits, of_nat, indicator.
  destruct (has_digit query), (has_comma query); cbv zeta; ring.
Qed.

(** C9.  The parser's confidence is the sum
    0.5 + 0.1 per entity + 0.05 per medical term found + 0.05 per
    insurance term found + 0.1 for a digit + 0.1 for a comma, clamped to
    [0,1] and rounded to two decimals (the rounding leaves the clamped
    sum unchanged); it lies in [0,1]; and the confidence [parse_query]
    reports is this function of the text, the same at every run. *)
Theorem parser_confidence_formula (query : string) (e : Entities) :
  let raw := formula (entity_count e)
                     (term_hits confidence_medical_terms query)
                     (term_hits confidence_insurance_terms query)
                     (has_digit query) (has_comma query) in
  _calculate_confidence query e = Num.round2 (clamp01 raw)
  /\ _calculate_confidence query e == clamp01 raw
  /\ 0 <= _calculate_confidence query e <= 1
  /\ forall nlp text,
      confidence (parse_query nlp text)
      = _calculate_confidence (_normalize_query text)
                              (_extract_entities nlp (_normalize_query text)).
Proof.
  intros raw.
  set (k := hundredths (entity_count e)
                       (term_hits confidence_medical_terms query)
                       (term_hits confidence_insurance_terms query)
                       (has_digit query) (has_comma query)).
  assert (Hraw : raw == inject_Z k / 100) by apply formula_hundredths.
  assert (Hk : (50 <= k)%Z) by (unfold k, hundredths;
                                destruct (has_digit query), (has_comma query); lia).
  assert (Hmin : Qmin raw 1 == inject_Z (Z.min k 100) / 100)
    by (rewrite Hraw; apply min_hundredths).
  assert (Hpos : 0 <= Qmin raw 1).
  { rewrite Hmin.
    assert (H0 : 0 == inject_Z 0 / 100) by reflexivity.
    rewrite H0; apply hundredths_le; lia. }
  assert (Hclamp : clamp01 raw == Qmin raw 1)
    by (unfold clamp01; apply Q.max_r; exact Hpos).
  assert (Hcode : _calculate_confidence query e = Num.round2 (clamp01 raw)).
  { unfold _calculate_confidence. apply round2_comp.
    rewrite Hclamp. apply Q.min_compat; [|reflexivity].
    apply code_sum_is_formula. }
  assert (Hval : _calculate_confidence query e == clamp01 raw).
  { rewrite Hcode. apply (round2_hundredths _ (Z.min k 100)).
    rewrite Hclamp; exact Hmin. }
  split; [exact Hcode|]. split; [exact Hval|]. split.
  - rewrite Hval, Hclamp; split; [exact Hpos | apply Q.le_min_r].
  - intros nlp text; reflexivity.
Qed.

(** *** Age extraction *)

(** The age entity of a parsed query, in terms of [_extract_age]. *)
Lemma parsed_age nlp query :
  age (entities (parse_query nlp query))
  = match _extract_age (_normalize_query query) with
    | Some a => if truthy_int a then Some a else None
    | None => None
    end.
Proof. reflexivity. Qed.

Lemma extract_age_from_range ps query a :
  extract_age_from ps query = Some a -> (0 <= a <= 120)%Z.
Proof.
  induction ps as [|pattern ps IH]; cbn [extract_age_from]; [discriminate|].
  destruct (Re.search true pattern query) as [m|]; [|exact IH].
  destruct (int_group1 m) as [v|]; [|exact IH].
  destruct ((0 <=? v)%Z && (v <=? 120)%Z) eqn:E; [|exact IH].
  intros [= <-]. apply andb_true_iff in E; lia.
Qed.

(** Whatever the text, an extracted age lies in [0,120]. *)
Lemma extracted_age_in_range nlp query a :
  age (entities (parse_query nlp query)) = Some a -> (0 <= a <= 120)%Z.
Proof.
  rewrite parsed_age.
  destruct (_extract_age (_normalize_query query)) as [v|] eqn:E; [|discriminate].
  destruct (truthy_int v); [|discriminate].
  intros [= <-]. eapply extract_age_from_range; exact E.
Qed.

(** Ages 1 to 99 round-trip in each of the supported forms. *)
Lemma age_round_trip_1_to_99 nlp (n : Z) (query : string) :
  (1 <= n <= 99)%Z -> In query (AgeForms.forms n) ->
  age (entities (parse_query nlp query)) = Some n.
Proof.
  intros Hn Hq.
  assert (Hall : forallb (fun k => AgeForms.round_trips (Z.of_nat k)) (seq 1 99)
                 = true) by (vm_compute; reflexivity).
  rewrite forallb_forall in Hall.
  specialize (Hall (Z.to_nat n)).
  rewrite Z2Nat.id in Hall by lia.
  assert (Hin : In (Z.to_nat n) (seq 1 99)) by (apply in_seq; lia).
  apply Hall in Hin. unfold AgeForms.round_trips in Hin.
  rewrite forallb_forall in Hin. specialize (Hin query Hq).
  unfold AgeForms.extracts in Hin. rewrite parsed_age.
  destruct (_extract_age (_normalize_query query)) as [a|]; [|discriminate].
  apply Z.eqb_eq in Hin; subst a.
  unfold truthy_int. destruct (n =? 0)%Z eqn:E; [apply Z.eqb_eq in E; lia|].
  reflexivity.
Qed.

(** C4.  At the query "age 105" the parser reports the age 10: the
    capture of the age patterns holds two digits at most, so an age from
    100 to 120, which the range check 0..120 would accept, is cut to its
    first two digits ("105 years old" gives 5, the match starting at the
    second digit).  At "age 0" the extractor returns 0, and the entity
    map leaves the age out. *)
Theorem age_105_is_reported_as_10 (nlp : option (string -> list (string * string))) :
  _extract_age "age 105" = Some 10%Z
  /\ age (entities (parse_query nlp "age 105")) = Some 10%Z
  /\ age (entities (parse_query nlp "105 years old")) = Some 5%Z
  /\ _extract_age "age 0" = Some 0%Z
  /\ age (entities (parse_query nlp "age 0")) = None.
Proof.
  rewrite !parsed_age. repeat split; vm_compute; reflexivity.
Qed.

End ParserProperties.

(** ** Benefit amount *)

Section BenefitProperties.

Import DecisionEngine Benefit.

Local Open Scope Q_scope.

Lemma running_max_app start l1 l2 :
  running_max start (l1 ++ l2) = running_max (running_max start l1) l2.
Proof. unfold running_max; apply fold_left_app. Qed.

Lemma running_max_ge_start l : forall start, start <= running_max start l.
Proof.
  induction l as [|a l IH]; intros start; simpl; [apply Qle_refl|].
  destruct (Qlt_bool start a) eqn:E.
  - eapply Qle_trans; [apply Qlt_le_weak, Qlt_bool_true, E | apply IH].
  - apply IH.
Qed.

Lemma running_max_upper l :
  forall start a, In a l -> a <= running_max start l.
Proof.
  induction l as [|b l IH]; intros start a []; simpl.
  - subst b. destruct (Qlt_bool start a) eqn:E.
    + apply running_max_ge_start.
    + eapply Qle_trans; [apply Qlt_bool_false, E | apply running_max_ge_start].
  - apply IH; assumption.
Qed.

Lemma running_max_attained l :
  forall start, running_max start l = start \/ In (running_max start l) l.
Proof.
  induction l as [|b l IH]; intros start; simpl; [auto|].
  destruct (Qlt_bool start b).
  - destruct (IH b) as [H|H]; [rewrite H|]; auto.
  - destruct (IH start) as [H|H]; auto.
Qed.

Lemma scan_adds_nil b : scan_adds b b [].
Proof. split; [reflexivity | rewrite app_nil_r; reflexivity]. Qed.

Lemma scan_adds_trans b1 b2 b3 l1 l2 :
  scan_adds b1 b2 l1 -> scan_adds b2 b3 l2 -> scan_adds b1 b3 (l1 ++ l2).
Proof.
  intros [Ha1 Hl1] [Ha2 Hl2]; split.
  - rewrite running_max_app, <- Ha1; exact Ha2.
  - rewrite Hl2, Hl1, app_assoc; reflexivity.
Qed.

Lemma matches_scan procedure p strs :
  forall b,
    scan_adds b (fold_left (amount_step procedure p) strs b)
              (if context_matches procedure p then parsed strs else []).
Proof.
  induction strs as [|str strs IH]; intros b; cbn [fold_left].
  - destruct (context_matches procedure p); apply scan_adds_nil.
  - specialize (IH (amount_step procedure p b str)).
    assert (Hstep : scan_adds b (amount_step procedure p b str)
                      (if context_matches procedure p
                       then parsed [str] else [])).
    { unfold amount_step, parsed, context_matches; cbn [flat_map].
      destruct (Num.float_of _) as [a|];
        destruct (negb (truthy_str procedure) || Str.contains _ _);
        try apply scan_adds_nil.
      split; cbn [bc_amount sub_limits]; [reflexivity|].
      rewrite map_app, app_nil_r; reflexivity. }
    pose proof (scan_adds_trans _ _ _ _ _ Hstep IH) as H.
    destruct (context_matches procedure p); [|exact H].
    unfold parsed in *; cbn [flat_map] in *.
    rewrite app_nil_r in H; exact H.
Qed.

Lemma patterns_scan procedure p pats :
  forall b,
    scan_adds b
      (fold_left (fun b pattern =>
                    fold_left (amount_step procedure p)
                              (Re.findall false pattern (Str.lower (text p))) b)
                 pats b)
      (if context_matches procedure p
       then flat_map (fun pattern =>
                        parsed (Re.findall false pattern (Str.lower (text p))))
                     pats
       else []).
Proof.
  induction pats as [|pat pats IH]; intros b; cbn [fold_left flat_map].
  - destruct (context_matches procedure p); apply scan_adds_nil.
  - pose proof (scan_adds_trans _ _ _ _ _
                  (matches_scan procedure p
                     (Re.findall false pat (Str.lower (text p))) b)
                  (IH _)) as H.
    destruct (context_matches procedure p); exact H.
Qed.

Lemma passages_scan procedure ps :
  forall b,
    scan_adds b (fold_left (benefit_step procedure) ps b)
              (applicable_amounts procedure ps).
Proof.
  induction ps as [|p ps IH]; intros b; cbn [fold_left];
    [apply scan_adds_nil|].
  unfold applicable_amounts; cbn [flat_map]; fold (applicable_amounts procedure ps).
  apply scan_adds_trans with (b2 := benefit_step procedure b p); [|apply IH].
  unfold benefit_step, scanned.
  destruct (mem_str (section_type p) _); cbn [andb]; [|apply scan_adds_nil].
  apply patterns_scan.
Qed.

(** C10, amended.  The benefit calculation scans the passages of the
    sections benefit, limitation and financial; the amount it returns is
    the maximum of the amounts matched in those of these passages whose
    text contains the procedure (all of them when no procedure is
    given), and 0.0 when there is none; and its sub-limit entries are
    exactly these amounts, in scan order.  Amounts matched in a passage
    whose text does not contain the procedure are not recorded. *)
Theorem benefit_amount_is_maximum (e : Entities) (ps : list Passage) :
  exists b,
    _calculate_benefit_amount e ps = Ok b
    /\ map sl_limit (sub_limits b) = applicable_amounts (procedure_lower e) ps
    /\ bc_amount b = running_max 0.0 (applicable_amounts (procedure_lower e) ps)
    /\ (forall a, In a (applicable_amounts (procedure_lower e) ps) ->
                  a <= bc_amount b)
    /\ (bc_amount b = 0.0 \/ In (bc_amount b)
                                  (applicable_amounts (procedure_lower e) ps))
    /\ 0 <= bc_amount b.
Proof.
  eexists; split; [reflexivity|].
  destruct (passages_scan (procedure_lower e) ps benefit_init) as [Ha Hl].
  cbn [bc_amount sub_limits benefit_init map app] in Ha, Hl.
  split; [exact Hl|]. split; [exact Ha|]. rewrite Ha. split; [|split].
  - intros a; apply running_max_upper.
  - apply running_max_attained.
  - eapply Qle_trans; [|apply running_max_ge_start]; discriminate.
Qed.

End BenefitProperties.

(** An amount matched in a benefit clause that does not mention the
    procedure is not recorded as a sub-limit. *)
Lemma sub_limits_skip_other_context_counterexample :
  exists b,
    DecisionEngine._calculate_benefit_amount Sample.knee_claim [Sample.dental_clause]
    = Ok b
    /\ Benefit.all_amounts [Sample.dental_clause] = [inject_Z 5000]
    /\ map DecisionEngine.sl_limit (DecisionEngine.sub_limits b)
       <> Benefit.all_amounts [Sample.dental_clause].
Proof.
  eexists; split; [reflexivity|]. split; [vm_compute; reflexivity|].
  vm_compute; discriminate.
Qed.

(** ** Waiting periods *)

Section WaitingProperties.

Import DecisionEngine Waiting.

Variable float_repr : Q -> string.

Lemma waiting_scan_nil m w : Waiting.scan_adds m w w [].
Proof.
  unfold Waiting.scan_adds; cbn [nonempty existsb map last List.length].
  rewrite !orb_false_r, app_nil_r, Nat.add_0_r; repeat split.
Qed.

(** One passage that produces a match, with requirement [r]. *)
Lemma waiting_step_match procedure m w p str r :
  truthy_str procedure = true ->
  clause_match p = Some str ->
  required_months_of (Str.lower (text p)) (Str.int str) = Ok r ->
  exists w',
    waiting_step float_repr procedure m w p = Ok w'
    /\ applicable w' = true
    /\ satisfied w' = satisfied w || meets m r
    /\ required_period w' = Some r
    /\ current_period w' = Some m
    /\ map cl_required_months (wc_supporting_clauses w')
       = (map cl_required_months (wc_supporting_clauses w) ++ [Some r])%list
    /\ List.length (details w') = S (List.length (details w)).
Proof.
  intros Hp Hc Hr. unfold waiting_step, clause_match in *.
  rewrite Hp; cbn [andb].
  destruct (mentions_waiting (Str.lower (text p))); [|discriminate].
  rewrite Hc, Hr; cbn [bind].
  eexists; split; [reflexivity|].
  cbn [applicable satisfied required_period current_period
       wc_supporting_clauses details].
  unfold meets. rewrite map_app, length_app, Nat.add_1_r.
  destruct (Qle_bool (num_Q r) (inject_Z m)), (satisfied w); repeat split.
Qed.

(** A passage that produces no match leaves the check as it is. *)
Lemma waiting_step_skip procedure m w p :
  (if truthy_str procedure then clause_match p else None) = None ->
  waiting_step float_repr procedure m w p = Ok w.
Proof.
  unfold waiting_step, clause_match.
  destruct (truthy_str procedure); cbn [andb]; [|reflexivity].
  destruct (mentions_waiting (Str.lower (text p))); [|reflexivity].
  intros ->; reflexivity.
Qed.

Lemma waiting_step_raise procedure m w p str err :
  truthy_str procedure = true ->
  clause_match p = Some str ->
  required_months_of (Str.lower (text p)) (Str.int str) = Raise err ->
  waiting_step float_repr procedure m w p = Raise err.
Proof.
  intros Hp Hc Hr. unfold waiting_step, clause_match in *.
  rewrite Hp; cbn [andb].
  destruct (mentions_waiting (Str.lower (text p))); [|discriminate].
  rewrite Hc, Hr; reflexivity.
Qed.

Lemma last_cons {X : Type} (l : list X) :
  forall a d, last (a :: l) d = last l a.
Proof.
  induction l as [|b l IH]; intros a d; [reflexivity|].
  change (last (a :: b :: l) d) with (last (b :: l) d).
  rewrite !IH; reflexivity.
Qed.

(** The whole scan, from any starting check. *)
Lemma waiting_scan procedure m ps :
  forall w reqs,
    requirements procedure ps = Ok reqs ->
    exists w',
      for_each (waiting_step float_repr procedure m) ps w = Ok w'
      /\ Waiting.scan_adds m w w' reqs.
Proof.
  induction ps as [|p ps IH]; intros w reqs Hreqs; cbn [requirements] in Hreqs.
  - injection Hreqs as <-. exists w; split; [reflexivity | apply waiting_scan_nil].
  - cbn [for_each].
    destruct (if truthy_str procedure then clause_match p else None)
      as [str|] eqn:Hm.
    + assert (Hp : truthy_str procedure = true)
        by (destruct (truthy_str procedure); [reflexivity | discriminate]).
      rewrite Hp in Hm.
      destruct (required_months_of (Str.lower (text p)) (Str.int str))
        as [r|err] eqn:Hr; cbn [bind] in Hreqs; [|discriminate].
      destruct (requirements procedure ps) as [rs|err] eqn:Hrs;
        cbn [bind] in Hreqs; [|discriminate].
      injection Hreqs as <-.
      destruct (waiting_step_match procedure m w p str r Hp Hm Hr)
        as (w1 & Hw1 & Ha & Hs & Hq & Hc & Hcl & Hd).
      rewrite Hw1; cbn [bind].
      destruct (IH w1 rs eq_refl) as (w' & Hw' & Ha' & Hs' & Hq' & Hc' & Hcl' & Hd').
      exists w'; split; [exact Hw'|].
      unfold Waiting.scan_adds.
      rewrite Ha', Hs', Hq', Hc', Hcl', Hd', Ha, Hs, Hq, Hc, Hcl, Hd.
      cbn [nonempty existsb map List.length].
      rewrite (last_cons (map Some rs) (Some r) (required_period w)).
      rewrite <- app_assoc, orb_true_r, orb_assoc, Nat.add_succ_r.
      repeat split. destruct rs; reflexivity.
    + rewrite (waiting_step_skip procedure m w p Hm); cbn [bind].
      apply IH; exact Hreqs.
Qed.

Lemma waiting_scan_raise procedure m ps :
  forall w err,
    requirements procedure ps = Raise err ->
    for_each (waiting_step float_repr procedure m) ps w = Raise err.
Proof.
  induction ps as [|p ps IH]; intros w err Hreqs; cbn [requirements] in Hreqs;
    [discriminate|].
  cbn [for_each].
  destruct (if truthy_str procedure then clause_match p else None)
    as [str|] eqn:Hm.
  - assert (Hp : truthy_str procedure = true)
      by (destruct (truthy_str procedure); [reflexivity | discriminate]).
    rewrite Hp in Hm.
    destruct (required_months_of (Str.lower (text p)) (Str.int str))
      as [r|err'] eqn:Hr; cbn [bind] in Hreqs.
    + destruct (waiting_step_match procedure m w p str r Hp Hm Hr)
        as (w1 & Hw1 & _).
      rewrite Hw1; cbn [bind]. apply IH.
      destruct (requirements procedure ps); cbn [bind] in Hreqs;
        [discriminate | exact Hreqs].
    + injection Hreqs as <-.
      rewrite (waiting_step_raise procedure m w p str err' Hp Hm Hr); reflexivity.
  - rewrite (waiting_step_skip procedure m w p Hm); cbn [bind].
    apply IH; exact Hreqs.
Qed.

(** C5, amended.  Without a [policy_duration] entity the check returns
    applicable = false.  With one, and with a procedure, every passage
    whose text contains "waiting period" or "wait" is examined: the
    month, year and day patterns are tried in that order, the first one
    that matches gives the duration, and the duration is converted to a
    requirement in months.  The scan goes through all the passages: it
    is applicable when some passage produced a match, satisfied when the
    current months reach the requirement of some such passage, the
    required period is that of the last such passage, and one supporting
    clause and one detail line are recorded for each. *)
Theorem waiting_check_scans_all_passages (e : Entities) (ps : list Passage) :
  (policy_duration e = None ->
   _check_waiting_periods float_repr e ps = Ok waiting_init)
  /\ (forall pd reqs,
        policy_duration e = Some pd ->
        requirements (procedure_lower e) ps = Ok reqs ->
        exists w,
          _check_waiting_periods float_repr e ps = Ok w
          /\ applicable w = nonempty reqs
          /\ satisfied w = existsb (meets (pd_months pd)) reqs
          /\ required_period w = last (map Some reqs) None
          /\ current_period w
             = (if nonempty reqs then Some (pd_months pd) else None)
          /\ map cl_required_months (wc_supporting_clauses w) = map Some reqs
          /\ List.length (details w) = List.length reqs)
  /\ (forall pd err,
        policy_duration e = Some pd ->
        requirements (procedure_lower e) ps = Raise err ->
        _check_waiting_periods float_repr e ps = Raise err).
Proof.
  unfold _check_waiting_periods. split; [intros ->; reflexivity|]. split.
  - intros pd reqs -> Hreqs.
    destruct (waiting_scan (procedure_lower e) (pd_months pd) ps
                           waiting_init reqs Hreqs)
      as (w & Hw & Ha & Hs & Hq & Hc & Hcl & Hd).
    exists w; split; [exact Hw|].
    cbn [waiting_init applicable satisfied required_period current_period
         wc_supporting_clauses details map app orb List.length Nat.add]
      in Ha, Hs, Hq, Hc, Hcl, Hd.
    repeat split; assumption.
  - intros pd err -> Hreqs. apply waiting_scan_raise; exact Hreqs.
Qed.

End WaitingProperties.

(** Two waiting-period clauses, of 24 months and of 1 month, against a
    policy of 3 months: both are recorded, the required period is that of
    the second, and the check is satisfied. *)
Lemma waiting_check_scans_all_passages_witness :
  exists w,
    DecisionEngine._check_waiting_periods
      Sample.float_repr Sample.knee_claim [Sample.wait_24_months; Sample.wait_1_month]
    = Ok w
    /\ DecisionEngine.applicable w = true
    /\ DecisionEngine.satisfied w = true
    /\ DecisionEngine.required_period w = Some (DecisionEngine.NInt 1).
Proof.
  destruct (waiting_check_scans_all_passages
              Sample.float_repr Sample.knee_claim
              [Sample.wait_24_months; Sample.wait_1_month]) as (_ & H & _).
  destruct (H {| pd_duration := 3; pd_unit := "months"; pd_months := 3 |}
              [DecisionEngine.NInt 24; DecisionEngine.NInt 1])
    as (w & Hw & Ha & Hs & Hq & _).
  - reflexivity.
  - vm_compute; reflexivity.
  - exists w; repeat split; assumption.
Defined.

(** The scan does not stop at the first passage producing a match: after a
    clause of 24 months, a later clause of 1 month changes the result. *)
Lemma waiting_scan_continues_counterexample :
  ~ Waiting.stops_at_first_match Sample.float_repr.
Proof.
  intros H.
  specialize (H Sample.knee_claim [] Sample.wait_24_months [Sample.wait_1_month]
                (Forall_nil _) eq_refl).
  vm_compute in H. discriminate H.
Qed.

(** * Further properties of the code *)

(** ** The analyses of the decision engine *)

Section AnalysisProperties.

Import DecisionEngine Analyses.

Local Open Scope Q_scope.

(** A step of the compliance scan: a passage that covers the procedure
    adds one condition and one clause, any other passage changes nothing. *)
Lemma compliance_step_cases procedure c p :
  (covers procedure p = true
   /\ coverage_found (compliance_step procedure c p) = true
   /\ policy_active (compliance_step procedure c p) = policy_active c
   /\ conditions_failed (compliance_step procedure c p) = conditions_failed c
   /\ List.length (conditions_met (compliance_step procedure c p))
      = S (List.length (conditions_met c))
   /\ map cl_source (ca_supporting_clauses (compliance_step procedure c p))
      = (map cl_source (ca_supporting_clauses c) ++ [filename p])%list)
  \/ (covers procedure p = false /\ compliance_step procedure c p = c).
Proof.
  unfold compliance_step, covers.
  destruct (mem_str (section_type p) ["benefit"; "coverage"] && truthy_str procedure);
    cbn [andb]; [|right; auto].
  destruct (Str.contains procedure (Str.lower (text p))
            || existsb (fun proc => Str.contains proc (Str.lower (text p)))
                       (_get_procedure_variations procedure));
    [left | right; auto].
  cbn [coverage_found policy_active conditions_failed conditions_met
       ca_supporting_clauses].
  rewrite length_app, map_app, Nat.add_1_r. repeat split.
Qed.

Lemma compliance_scan procedure ps :
  forall c,
    let c' := fold_left (compliance_step procedure) ps c in
    coverage_found c' = coverage_found c || existsb (covers procedure) ps
    /\ policy_active c' = policy_active c
    /\ conditions_failed c' = conditions_failed c
    /\ List.length (conditions_met c')
       = (List.length (conditions_met c)
          + List.length (filter (covers procedure) ps))%nat
    /\ map cl_source (ca_supporting_clauses c')
       = (map cl_source (ca_supporting_clauses c)
          ++ map filename (filter (covers procedure) ps))%list.
Proof.
  induction ps as [|p ps IH]; intros c; cbn [fold_left existsb filter].
  - cbn [List.length map]. rewrite orb_false_r, Nat.add_0_r, app_nil_r. repeat split.
  - specialize (IH (compliance_step procedure c p)); cbv zeta in IH.
    destruct IH as (Hc & Hp & Hf & Hm & Hs).
    destruct (compliance_step_cases procedure c p)
      as [(Hcov & H1 & H2 & H3 & H4 & H5)|(Hcov & Heq)]; rewrite Hcov.
    + rewrite Hc, Hp, Hf, Hm, Hs, H1, H2, H3, H4, H5.
      cbn [List.length map orb]. rewrite orb_true_r, <- app_assoc.
      repeat split. lia.
    + rewrite Heq in *. cbn [orb]. repeat split; assumption.
Qed.

(** X1.  The compliance analysis finds coverage exactly when some passage
    of a benefit or coverage section names the procedure or one of its
    variations; it records one met condition and one supporting clause for
    each such passage, in passage order, never marks the policy inactive
    and never records a failed condition. *)
Theorem compliance_coverage_characterised (e : Entities) (ps : list Passage) :
  exists c,
    _analyze_policy_compliance e ps = Ok c
    /\ coverage_found c = existsb (covers (procedure_lower e)) ps
    /\ map cl_source (ca_supporting_clauses c)
       = map filename (filter (covers (procedure_lower e)) ps)
    /\ List.length (conditions_met c)
       = List.length (filter (covers (procedure_lower e)) ps)
    /\ policy_active c = true
    /\ conditions_failed c = [].
Proof.
  eexists; split; [reflexivity|].
  destruct (compliance_scan (procedure_lower e) ps compliance_init)
    as (Hc & Hp & Hf & Hm & Hs).
  cbn [compliance_init coverage_found policy_active conditions_failed
       conditions_met ca_supporting_clauses orb map app List.length Nat.add] in *.
  repeat split; assumption.
Qed.

(** The loop over the age patterns. *)
Lemma age_patterns_scan a text_lower pats :
  forall x,
    let x' := fold_left (age_pattern_step a text_lower) pats x in
    excluded x'
    = excluded x
      || existsb (fun pattern =>
                    match Re.findall false pattern text_lower with
                    | m :: _ => (Str.int m <? a)%Z
                    | [] => false
                    end) pats
    /\ ec_supporting_clauses x' = ec_supporting_clauses x
    /\ applicable_exclusions x' = applicable_exclusions x.
Proof.
  induction pats as [|pat pats IH]; intros x; cbn [fold_left existsb].
  - rewrite orb_false_r; repeat split.
  - specialize (IH (age_pattern_step a text_lower x pat)); cbv zeta in IH.
    destruct IH as (He & Hs & Ha). rewrite He, Hs, Ha.
    unfold age_pattern_step.
    destruct (Re.findall false pat text_lower) as [|m ms].
    + cbn [orb]; repeat split.
    + destruct (Str.int m <? a)%Z; cbn [excluded ec_supporting_clauses
                                        applicable_exclusions orb].
      * rewrite orb_true_r; repeat split.
      * repeat split.
Qed.

Lemma exclusion_step_spec procedure age x p :
  let x' := exclusion_step procedure age x p in
  excluded x' = excluded x || excludes procedure age p
  /\ map cl_source (ec_supporting_clauses x')
     = (map cl_source (ec_supporting_clauses x)
        ++ (if names_procedure procedure p then [filename p] else []))%list
  /\ applicable_exclusions x' = applicable_exclusions x.
Proof.
  unfold exclusion_step, excludes, names_procedure, excludes_age, age_over_limit.
  destruct (String.eqb (section_type p) "exclusion"); cbn [andb orb];
    [|rewrite orb_false_r, app_nil_r; repeat split].
  destruct (truthy_str procedure && Str.contains procedure (Str.lower (text p)));
    cbn [orb].
  - destruct age as [a|]; [destruct (truthy_int a)|]; cbn [andb].
    + match goal with
      | |- context [fold_left ?f age_patterns ?x0] =>
          destruct (age_patterns_scan a (Str.lower (text p)) age_patterns x0)
            as (He & Hs & Ha)
      end.
      cbv zeta; rewrite He, Hs, Ha.
      cbn [excluded ec_supporting_clauses applicable_exclusions orb].
      rewrite orb_true_r, map_app; repeat split.
    + cbn [excluded ec_supporting_clauses applicable_exclusions].
      rewrite orb_true_r, map_app; repeat split.
    + cbn [excluded ec_supporting_clauses applicable_exclusions].
      rewrite orb_true_r, map_app; repeat split.
  - rewrite app_nil_r.
    destruct age as [a|]; [destruct (truthy_int a)|]; cbn [andb].
    + destruct (age_patterns_scan a (Str.lower (text p)) age_patterns x)
        as (He & Hs & Ha).
      cbv zeta; rewrite He, Hs, Ha; repeat split.
    + rewrite orb_false_r; repeat split.
    + rewrite orb_false_r; repeat split.
Qed.

Lemma exclusion_scan procedure age ps :
  forall x,
    let x' := fold_left (exclusion_step procedure age) ps x in
    excluded x' = excluded x || existsb (excludes procedure age) ps
    /\ map cl_source (ec_supporting_clauses x')
       = (map cl_source (ec_supporting_clauses x)
          ++ map filename (filter (names_procedure procedure) ps))%list
    /\ applicable_exclusions x' = applicable_exclusions x.
Proof.
  induction ps as [|p ps IH]; intros x; cbn [fold_left existsb filter map].
  - rewrite orb_false_r, app_nil_r; repeat split.
  - specialize (IH (exclusion_step procedure age x p)); cbv zeta in IH.
    destruct IH as (He & Hs & Ha).
    destruct (exclusion_step_spec procedure age x p) as (He1 & Hs1 & Ha1).
    rewrite He, Hs, Ha, He1, Hs1, Ha1, orb_assoc, <- app_assoc.
    destruct (names_procedure procedure p); repeat split.
Qed.

(** X2.  The exclusion check marks the claim excluded exactly when some
    passage of an exclusion section names the procedure, or states an age
    limit ("above N years", "over N years", "N years and above") below the
    age.  A supporting clause is recorded for each passage that names the
    procedure and for no other: an exclusion by age leaves no clause.  The
    list of applicable exclusions is never filled. *)
Theorem exclusion_characterised (e : Entities) (ps : list Passage) :
  exists x,
    _check_exclusions e ps = Ok x
    /\ excluded x = existsb (excludes (procedure_lower e) (age e)) ps
    /\ map cl_source (ec_supporting_clauses x)
       = map filename (filter (names_procedure (procedure_lower e)) ps)
    /\ applicable_exclusions x = [].
Proof.
  eexists; split; [reflexivity|].
  destruct (exclusion_scan (procedure_lower e) (age e) ps exclusion_init)
    as (He & Hs & Ha).
  cbn [exclusion_init excluded ec_supporting_clauses applicable_exclusions
       orb map app] in *.
  repeat split; assumption.
Qed.

End AnalysisProperties.
